(** * VesselVio analysis page: batch composition and run gating

    A shallow embedding of [library/gui/analysis_page.py]: the file sheet
    (a [QTableWidget]), the loading widget that owns the two file columns
    and the annotation catalog, the file-loader dialog, and the analysis
    page that validates the batch and starts the analysis thread.

    Qt widgets are records of the fields the Python code reads and writes;
    a slot is a function on these records.  Python exceptions are the
    [Raise] case of [outcome].  What the user does in a native dialog is an
    explicit argument of the slot that opens the dialog. *)

From Stdlib Require Import Ascii.
From stdpp Require Import base strings list gmap fin_maps pretty.

Local Open Scope string_scope.
Local Open Scope Z_scope.

(** ** Python values *)

(** Uncaught Python exceptions of the modelled code.  The widget state after
    an uncaught exception is not tracked. *)
Inductive exn : Type :=
  | AttributeError (attr : string)
  | IndexError
  | KeyError (key : string)
  | TypeError (what : string)
  | OverflowError
  | ValueError
  | OSError.

Inductive outcome (A : Type) : Type :=
  | Return (a : A)
  | Raise (e : exn).
Arguments Return {A} a.
Arguments Raise {A} e.

#[global] Instance outcome_ret : MRet outcome := @Return.

#[global] Instance outcome_bind : MBind outcome := λ A B k m,
  match m with
  | Return a => k a
  | Raise e => Raise e
  end.

(** Truth value of a Python list: [if files:]. *)
Definition list_truthy {A : Type} (l : list A) : bool :=
  match l with
  | [] => false
  | _ :: _ => true
  end.

(** Truth value of an optional list, [None] or a list. *)
Definition opt_list_truthy {A : Type} (o : option (list A)) : bool :=
  match o with
  | None => false
  | Some l => list_truthy l
  end.

(** [del l[i]] with Python's index rule: a negative index counts from the
    end, and an index outside [-len, len) raises [IndexError]. *)
Definition py_del {A : Type} (l : list A) (i : Z) : outcome (list A) :=
  let n := Z.of_nat (length l) in
  let j := if bool_decide (i < 0) then i + n else i in
  if bool_decide (0 ≤ j < n) then Return (delete (Z.to_nat j) l)
  else Raise IndexError.

(** [os.path.basename] (POSIX flavour): what follows the last slash. *)
Fixpoint basename_from (acc p : string) : string :=
  match p with
  | EmptyString => acc
  | String c r =>
      if Ascii.eqb c "/"%char then basename_from EmptyString r
      else basename_from (acc +:+ String c EmptyString) r
  end.

Definition basename (p : string) : string := basename_from EmptyString p.

(** Attribute lookup on an instance whose class defines [methods]. *)
Definition getattr (methods : list string) (name : string) : outcome string :=
  if bool_decide (name ∈ methods) then Return name
  else Raise (AttributeError name).

(** ** The annotation catalog *)

(** Modelled from the spec: the region metadata stored under each region
    label of the catalog, whose layout is fixed by
    [library/annotation_processing], not by this file.  The spec speaks of
    region definitions that carry colour triples. *)
Record region : Type := Region { colors : list (Z * Z * Z) }.

(** Do two region definitions name a common colour triple? *)
Definition shares_color (r1 r2 : region) : bool :=
  existsb (λ c, bool_decide (c ∈ colors r2)) (colors r1).

Fixpoint duplicate_colors (rs : list region) : bool :=
  match rs with
  | [] => false
  | r :: rs' => existsb (shares_color r) rs' || duplicate_colors rs'
  end.

(** Modelled from the spec: [RGB_check] of [library/annotation_processing],
    which scans all region definitions for duplicate colour triples: it
    answers [true] when two region entries of the catalog share one. *)
Definition RGB_check (annotation_data : gmap string region) : bool :=
  duplicate_colors ((map_to_list annotation_data).*2).

(** Truth value of [self.annotation_data]: [None] and the empty dict are
    false. *)
Definition catalog_truthy (annotation_data : option (gmap string region)) : bool :=
  match annotation_data with
  | None => false
  | Some m => negb (Nat.eqb (size m) 0)
  end.

(** ** Parsed JSON *)

(** A value under a top-level key of a parsed document: a mapping (of
    region labels to region metadata), or any other JSON value, of which
    this file only takes the truth value. *)
Inductive json_member : Type :=
  | Member_mapping (regions : gmap string region)
  | Member_other (truthy : bool).

(** What [json.load] returns, as far as this file looks at it: of an array
    and of a string only the length is read. *)
Inductive json_document : Type :=
  | JSON_object (members : gmap string json_member)
  | JSON_array (len : nat)
  | JSON_string (len : nat)
  | JSON_number
  | JSON_bool (b : bool)
  | JSON_null.

(** [len(document)]: numbers, booleans and [None] have no length. *)
Definition py_len (document : json_document) : outcome nat :=
  match document with
  | JSON_object members => Return (size members)
  | JSON_array len | JSON_string len => Return len
  | JSON_number | JSON_bool _ | JSON_null => Raise (TypeError "len")
  end.

(** [key in document.keys()]: only a dict has [keys]. *)
Definition in_keys (key : string) (document : json_document) : outcome bool :=
  match document with
  | JSON_object members => Return (bool_decide (key ∈ dom members))
  | _ => Raise (AttributeError "keys")
  end.

(** [document[key]], once [key in document.keys()] has answered. *)
Definition get_item (key : string) (document : json_document)
  : outcome json_member :=
  match document with
  | JSON_object members =>
      match members !! key with
      | Some member => Return member
      | None => Raise (KeyError key)
      end
  | _ => Raise (TypeError "subscript")
  end.

(** The conversion of a Python int to the C int of a Qt call. *)
Definition C_int (z : Z) : outcome Z :=
  if bool_decide (- 2 ^ 31 ≤ z < 2 ^ 31) then Return z
  else Raise OverflowError.

(** ** The combo boxes *)

Inductive DatasetType : Type := Volume | Graph.
Inductive AnnotationType : Type := Ann_None | Ann_ID | Ann_RGB.

#[global] Instance DatasetType_eq_dec : EqDecision DatasetType.
Proof. solve_decision. Defined.

#[global] Instance AnnotationType_eq_dec : EqDecision AnnotationType.
Proof. solve_decision. Defined.

Definition datasetType_currentText (d : DatasetType) : string :=
  match d with
  | Volume => "Volume"
  | Graph => "Graph"
  end.

Definition annotationType_currentText (a : AnnotationType) : string :=
  match a with
  | Ann_None => "None"
  | Ann_ID => "ID"
  | Ann_RGB => "RGB"
  end.

Definition annotationType_currentIndex (a : AnnotationType) : Z :=
  match a with
  | Ann_None => 0
  | Ann_ID => 1
  | Ann_RGB => 2
  end.

(** ** class FileSheet(QTableWidget) *)

Module FileSheet.

(** The table: its column count, the header labels, and one sparse map
    from column to cell text per row.  Column widths, delegates and resize
    modes are presentation only and left out. *)
Record t : Type := mk {
  columnCount : Z;
  header : list string;
  rows : list (gmap Z string)
}.

Definition rowCount (s : t) : Z := Z.of_nat (length (rows s)).

(** [item(row, column)], as its text. *)
Definition item (row col : Z) (s : t) : option string :=
  if bool_decide (0 ≤ row) then r ← rows s !! Z.to_nat row; r !! col
  else None.

(** [setItem] outside the table is ignored by Qt. *)
Definition setItem (row col : Z) (text : string) (s : t) : t :=
  if bool_decide (0 ≤ row < rowCount s ∧ 0 ≤ col < columnCount s)
  then mk (columnCount s) (header s)
          (alter (λ r, <[col := text]> r) (Z.to_nat row) (rows s))
  else s.

Definition insertRow (row : Z) (s : t) : t :=
  if bool_decide (0 ≤ row ≤ rowCount s)
  then mk (columnCount s) (header s)
          (take (Z.to_nat row) (rows s) ++ ∅ :: drop (Z.to_nat row) (rows s))
  else s.

Definition removeRow (row : Z) (s : t) : t :=
  if bool_decide (0 ≤ row < rowCount s)
  then mk (columnCount s) (header s) (delete (Z.to_nat row) (rows s))
  else s.

Definition setRowCount (n : Z) (s : t) : t :=
  if bool_decide (0 ≤ n)
  then mk (columnCount s) (header s)
          (take (Z.to_nat n) (rows s)
           ++ replicate (Z.to_nat n - length (rows s)) ∅)
  else s.

(** Shrinking drops the cells and labels of the removed columns. *)
Definition setColumnCount (n : Z) (s : t) : t :=
  if bool_decide (0 ≤ n)
  then mk n (take (Z.to_nat n) (header s))
          ((λ r, filter (λ kv : Z * string, 0 ≤ kv.1 < n) r) <$> rows s)
  else s.

Definition setHorizontalHeaderLabels (labels : list string) (s : t) : t :=
  mk (columnCount s) (take (Z.to_nat (columnCount s)) labels) (rows s).

Definition set_format (column_count : Z) (header : list string) (s : t) : t :=
  let s := setColumnCount 0 s in
  let s := setColumnCount column_count s in
  setHorizontalHeaderLabels header s.

Definition init_default (s : t) : t :=
  set_format 2 ["File Name"; "File Status"] s.

Definition init_annotation (s : t) : t :=
  set_format 4
    ["File Name"; "Annotation File Name"; "Regions Processed"; "File Status"] s.

Definition init_csv (s : t) : t :=
  set_format 3 ["File Name - Vertices"; "File Name - Edges"; "File Status"] s.

(** [FileSheet()]: an empty table in the default format. *)
Definition new : t := init_default (mk 0 [] []).

End FileSheet.

(** ** Dialogs *)

(** The modal dialogs a slot executes, in the order they are shown. *)
Inductive dialog : Type :=
  | QMessageBox (text : string)
  | RGB_Warning.

(** [QMessageBox.No], the answer that aborts a load with duplicate colours. *)
Definition QMessageBox_No : Z := 65536.
Definition QMessageBox_Yes : Z := 16384.

(** The one top-level key of an annotation file. *)
Definition catalog_marker : string := "VesselVio Annotations".

(** ** class LoadingWidget(QWidget) *)

Module LoadingWidget.

Record t : Type := mk {
  results_folder : string;
  column1_files : list string;
  column2_files : list string;
  annotation_data : option (gmap string region);
  datasetType : DatasetType;
  annotationType : AnnotationType;
  annotationType_disabled : bool;
  loadAnnotationFile_visible : bool;
  loadedJSON_text : string;
  loadedJSON_styleSheet : string;
  JSONdefault : string;
  fileSheet : FileSheet.t
}.

Definition set_column1_files (v : list string) (s : t) : t :=
  mk (results_folder s) v (column2_files s) (annotation_data s)
     (datasetType s) (annotationType s) (annotationType_disabled s)
     (loadAnnotationFile_visible s) (loadedJSON_text s)
     (loadedJSON_styleSheet s) (JSONdefault s) (fileSheet s).

Definition set_column2_files (v : list string) (s : t) : t :=
  mk (results_folder s) (column1_files s) v (annotation_data s)
     (datasetType s) (annotationType s) (annotationType_disabled s)
     (loadAnnotationFile_visible s) (loadedJSON_text s)
     (loadedJSON_styleSheet s) (JSONdefault s) (fileSheet s).

Definition set_annotation_data (v : option (gmap string region)) (s : t) : t :=
  mk (results_folder s) (column1_files s) (column2_files s) v
     (datasetType s) (annotationType s) (annotationType_disabled s)
     (loadAnnotationFile_visible s) (loadedJSON_text s)
     (loadedJSON_styleSheet s) (JSONdefault s) (fileSheet s).

Definition set_datasetType (v : DatasetType) (s : t) : t :=
  mk (results_folder s) (column1_files s) (column2_files s) (annotation_data s)
     v (annotationType s) (annotationType_disabled s)
     (loadAnnotationFile_visible s) (loadedJSON_text s)
     (loadedJSON_styleSheet s) (JSONdefault s) (fileSheet s).

Definition set_annotationType (v : AnnotationType) (s : t) : t :=
  mk (results_folder s) (column1_files s) (column2_files s) (annotation_data s)
     (datasetType s) v (annotationType_disabled s)
     (loadAnnotationFile_visible s) (loadedJSON_text s)
     (loadedJSON_styleSheet s) (JSONdefault s) (fileSheet s).

Definition set_annotationType_disabled (v : bool) (s : t) : t :=
  mk (results_folder s) (column1_files s) (column2_files s) (annotation_data s)
     (datasetType s) (annotationType s) v
     (loadAnnotationFile_visible s) (loadedJSON_text s)
     (loadedJSON_styleSheet s) (JSONdefault s) (fileSheet s).

Definition set_loadAnnotationFile_visible (v : bool) (s : t) : t :=
  mk (results_folder s) (column1_files s) (column2_files s) (annotation_data s)
     (datasetType s) (annotationType s) (annotationType_disabled s)
     v (loadedJSON_text s)
     (loadedJSON_styleSheet s) (JSONdefault s) (fileSheet s).

Definition set_loadedJSON_text (v : string) (s : t) : t :=
  mk (results_folder s) (column1_files s) (column2_files s) (annotation_data s)
     (datasetType s) (annotationType s) (annotationType_disabled s)
     (loadAnnotationFile_visible s) v
     (loadedJSON_styleSheet s) (JSONdefault s) (fileSheet s).

Definition set_loadedJSON_styleSheet (v : string) (s : t) : t :=
  mk (results_folder s) (column1_files s) (column2_files s) (annotation_data s)
     (datasetType s) (annotationType s) (annotationType_disabled s)
     (loadAnnotationFile_visible s) (loadedJSON_text s)
     v (JSONdefault s) (fileSheet s).

Definition set_fileSheet (v : FileSheet.t) (s : t) : t :=
  mk (results_folder s) (column1_files s) (column2_files s) (annotation_data s)
     (datasetType s) (annotationType s) (annotationType_disabled s)
     (loadAnnotationFile_visible s) (loadedJSON_text s)
     (loadedJSON_styleSheet s) (JSONdefault s) v.

(** [LoadingWidget()]: both columns empty, no catalog, the combo boxes on
    their first entries, the JSON loader hidden.  [results_dir] is what
    [helpers.load_results_dir()] returns and [style] the style sheet the
    toolkit gives the read-only line edit. *)
Definition new (results_dir style : string) : t :=
  mk results_dir [] [] None Volume Ann_None false false "None" style style
     FileSheet.new.

(** *** Status management *)

(** [update_status(status)]: the thread sends [status] as a list whose
    first entry is the row index, a Python int, and whose second is the
    status text; [rest] is what follows them, so that [len(status) == 3]
    holds when [rest] has one entry, which is then [status[2]].  The first
    [setItem] converts the index to a C int and raises [OverflowError] when
    it does not fit.  The result pairs the widget with the row passed to
    [selectRow]. *)
Definition update_status (index : Z) (text : string) (rest : list string)
    (s : t) : outcome (t * Z) :=
  let column := FileSheet.columnCount (fileSheet s) - 1 in
  row ← C_int index;
  let sheet := FileSheet.setItem row column text (fileSheet s) in
  let sheet :=
    if bool_decide (column = 3) && Nat.eqb (2 + length rest) 3
    then match rest with
         | extra :: _ => FileSheet.setItem row (column - 1) extra sheet
         | [] => sheet
         end
    else sheet in
  mret (set_fileSheet sheet s, row).

(** The loop [for i in idxs: setItem(i, column, text)]. *)
Definition set_rows (column : Z) (text : string) (idxs : list Z)
    (sheet : FileSheet.t) : FileSheet.t :=
  foldl (λ sh i, FileSheet.setItem i column text sh) sheet idxs.

(** [for i in range(rowCount): setItem(i, column, text)]. *)
Definition fill_column (column : Z) (text : string) (sheet : FileSheet.t)
  : FileSheet.t :=
  set_rows column text (seqZ 0 (FileSheet.rowCount sheet)) sheet.

Definition update_queue (s : t) : t :=
  let last_column := FileSheet.columnCount (fileSheet s) - 1 in
  let sheet := fill_column last_column "Queued..." (fileSheet s) in
  if bool_decide (FileSheet.columnCount sheet = 4) then
    let status :=
      if catalog_truthy (annotation_data s)
      then "0/" +:+ pretty (size (default ∅ (annotation_data s)))
      else "Load JSON!" in
    let last_column := last_column - 1 in
    set_fileSheet (fill_column last_column status sheet) s
  else set_fileSheet sheet s.

(** *** File management *)

(** The loop shared by [add_column1_files] and [add_column2_files]:
    [for i, file in enumerate(files)], started at index [i]. *)
Fixpoint add_files (column i : Z) (files : list string) (sheet : FileSheet.t)
  : FileSheet.t :=
  match files with
  | [] => sheet
  | file :: files' =>
      let sheet :=
        if bool_decide (i + 1 > FileSheet.rowCount sheet)
        then FileSheet.insertRow (FileSheet.rowCount sheet) sheet
        else sheet in
      let filename := basename file in
      add_files column (i + 1) files' (FileSheet.setItem i column filename sheet)
  end.

Definition add_column1_files (s : t) : t :=
  let files := column1_files s in
  update_queue (set_fileSheet (add_files 0 0 files (fileSheet s)) s).

Definition add_column2_files (s : t) : t :=
  let files := column2_files s in
  update_queue (set_fileSheet (add_files 1 0 files (fileSheet s)) s).

(** [remove_file]: [hasSelection] and [currentRow] are what the selection
    model of the sheet answers when the button is pressed. *)
Definition remove_file (hasSelection : bool) (currentRow : Z) (s : t)
  : outcome t :=
  let columns := FileSheet.columnCount (fileSheet s) in
  if hasSelection then
    let index := currentRow in
    let s := set_fileSheet (FileSheet.removeRow index (fileSheet s)) s in
    s ← (if bool_decide (index < Z.of_nat (length (column1_files s)))
         then c1 ← py_del (column1_files s) index;
              mret (set_column1_files c1 s)
         else mret s);
    if bool_decide (columns = 3) then
      if bool_decide (index < Z.of_nat (length (column2_files s)))
      then c2 ← py_del (column2_files s) index;
           mret (set_column2_files c2 s)
      else mret s
    else mret s
  else mret s.

Definition clear_files (s : t) : t :=
  let s := set_fileSheet (FileSheet.setRowCount 0 (fileSheet s)) s in
  let s := set_column1_files [] s in
  set_column2_files [] s.

(** *** JSON file loading *)

Definition file_type_options (s : t) : t :=
  let visible := String.eqb (datasetType_currentText (datasetType s)) "Graph" in
  let s := if visible then s
           else set_fileSheet (FileSheet.init_default (fileSheet s)) s in
  let s := if bool_decide (annotationType_currentIndex (annotationType s) ≠ 0)
           then set_loadAnnotationFile_visible (negb visible) s
           else s in
  let s := set_annotationType_disabled visible s in
  clear_files s.

Definition annotation_options (s : t) : t :=
  let visible :=
    bool_decide (annotationType_currentIndex (annotationType s) ≠ 0) in
  let s := if visible
           then set_fileSheet (FileSheet.init_annotation (fileSheet s)) s
           else set_column2_files []
                  (set_fileSheet (FileSheet.init_default (fileSheet s)) s) in
  let s := set_loadAnnotationFile_visible visible s in
  add_column1_files s.

Definition JSON_error (warning : string) (s : t) : t :=
  let s := set_loadedJSON_styleSheet "border: 1px solid red;" s in
  set_loadedJSON_text warning s.

Definition update_JSON (s : t) : t :=
  if String.eqb (annotationType_currentText (annotationType s)) "None"
  then set_loadedJSON_text "None" (set_annotation_data None s)
  else s.

(** [load_annotation_file] on a file that parses to a mapping of mappings:
    [loaded_file] is the path [helpers.load_JSON] returns (empty when the
    user cancels), [parsed] the dict [json.load] reads from it, and [answer]
    what [RGB_Warning().exec_()] returns if that dialog is shown.  The
    result lists the dialogs shown.  On such a document no line of the slot
    raises; the other documents, and a file that cannot be read, are
    covered by [load_annotation_json] below. *)
Definition load_annotation_file
    (loaded_file : string) (parsed : gmap string (gmap string region))
    (answer : Z) (s : t) : t * list dialog :=
  if negb (String.eqb loaded_file "") then
    let annotation_data' := parsed in
    if negb (Nat.eqb (size annotation_data') 1)
       || negb (bool_decide (catalog_marker ∈ dom annotation_data'))
    then (JSON_error "Incorrect filetype!" s, [])
    else
      let commit (s : t) : t :=
        let s := set_loadedJSON_styleSheet (JSONdefault s) s in
        let filename := basename loaded_file in
        let s := set_loadedJSON_text filename s in
        let s := set_annotation_data
                   (Some (annotation_data' !!! catalog_marker)) s in
        update_queue s in
      if String.eqb (annotationType_currentText (annotationType s)) "RGB"
         && RGB_check (annotation_data' !!! catalog_marker)
      then
        if bool_decide (answer = QMessageBox_No)
        then (s, [RGB_Warning])
        else (commit s, [RGB_Warning])
      else (commit s, [])
  else (s, []).

(** [update_queue] when [self.annotation_data] is bound to a JSON value
    that is no mapping: a true one has no [keys]. *)
Definition update_queue_other (truthy : bool) (s : t) : outcome t :=
  let last_column := FileSheet.columnCount (fileSheet s) - 1 in
  let sheet := fill_column last_column "Queued..." (fileSheet s) in
  if bool_decide (FileSheet.columnCount sheet = 4) then
    if truthy then Raise (AttributeError "keys")
    else
      let status := "Load JSON!" in
      let last_column := last_column - 1 in
      mret (set_fileSheet (fill_column last_column status sheet) s)
  else mret (set_fileSheet sheet s).

(** The widget a call of [load_annotation_file] returns with.  The record
    types [annotation_data] as [None] or a mapping; [With_other truthy s] is
    the widget whose [annotation_data] is bound to a JSON value that is no
    mapping, of truth value [truthy], and whose other fields are those of
    [s]. *)
Inductive loaded : Type :=
  | Widget (s : t)
  | With_other (truthy : bool) (s : t).

(** [load_annotation_file] on every document: [parsed] is what
    [open]/[json.load] does with the chosen file, a document or an
    exception, and [check_other] what [RGB_check] does with a value that is
    no mapping, should it get one.  [load_annotation_file] above is this
    slot on the documents that map keys to mappings
    ([load_annotation_json_mappings]). *)
Definition load_annotation_json
    (loaded_file : string) (parsed : outcome json_document)
    (check_other : outcome bool) (answer : Z) (s : t)
  : outcome (loaded * list dialog) :=
  if negb (String.eqb loaded_file "") then
    annotation_data' ← parsed;
    n ← py_len annotation_data';
    malformed ← (if negb (Nat.eqb n 1) then mret true
                 else present ← in_keys catalog_marker annotation_data';
                      mret (negb present));
    if malformed : bool
    then mret (Widget (JSON_error "Incorrect filetype!" s), [])
    else
      member ← get_item catalog_marker annotation_data';
      duplicates ← (if String.eqb (annotationType_currentText (annotationType s))
                         "RGB"
                    then match member with
                         | Member_mapping regions => mret (RGB_check regions)
                         | Member_other _ => check_other
                         end
                    else mret false);
      if (duplicates : bool) && bool_decide (answer = QMessageBox_No)
      then mret (Widget s, [RGB_Warning])
      else
        let shown := if duplicates then [RGB_Warning] else [] in
        let s := set_loadedJSON_styleSheet (JSONdefault s) s in
        let filename := basename loaded_file in
        let s := set_loadedJSON_text filename s in
        match member with
        | Member_mapping regions =>
            mret (Widget (update_queue (set_annotation_data (Some regions) s)),
                  shown)
        | Member_other truthy =>
            s ← update_queue_other truthy s;
            mret (With_other truthy s, shown)
        end
  else mret (Widget s, []).

End LoadingWidget.

(** ** class FileLoader(QDialog) *)

Module FileLoader.

Record t : Type := mk {
  column1_files : list string;
  column2_files : list string;
  graph_format : string;
  annotation : string
}.

(** The methods the class body defines.  [QDialog] has none of the names
    looked up below. *)
Definition methods : list string :=
  [ "load_csv_vertices"; "load_csv_edges"; "load_volumes";
    "load_annotations"; "cancel_file_loading"; "load_ID_annotations";
    "load_RGB_annotation_parent_folder" ].

(** [__init__]: the buttons are bound to [self.<slot>] while the form is
    built, so each slot name is looked up on the instance. *)
Definition init (dataset_type annotation graph_format : string) : outcome t :=
  let self := mk [] [] graph_format annotation in
  _ ← (if String.eqb dataset_type "Volume"
       then _ ← getattr methods "load_volumes";
            getattr methods "load_annotations"
       else _ ← getattr methods "load_csv_vertices";
            getattr methods "load_csv_edges");
  _ ← getattr methods "cancel_load";
  mret self.

(** What the user does while the dialog runs: press one of the load
    buttons and pick [files] in the native dialog it opens (for RGB
    annotations, the sub-folders of the picked folder), or close the
    window. *)
Inductive action : Type :=
  | press_load_csv_vertices (files : list string)
  | press_load_csv_edges (files : list string)
  | press_load_volumes (files : list string)
  | press_load_annotations (files : list string)
  | close_window.

Definition extend_column1 (files : list string) (self : t) : t :=
  mk (column1_files self ++ files) (column2_files self)
     (graph_format self) (annotation self).

Definition extend_column2 (files : list string) (self : t) : t :=
  mk (column1_files self) (column2_files self ++ files)
     (graph_format self) (annotation self).

(** [exec_]: the slots run until one of them calls [accept()] or the
    window is closed; the answer is the dialog code and the instance. *)
Fixpoint exec_ (actions : list action) (self : t) : outcome (bool * t) :=
  match actions with
  | [] => mret (false, self)
  | close_window :: _ => mret (false, self)
  | press_load_csv_vertices files :: rest
  | press_load_volumes files :: rest =>
      _ ← getattr methods "init_dialog";
      if list_truthy files then mret (true, extend_column1 files self)
      else exec_ rest self
  | press_load_csv_edges files :: rest =>
      _ ← getattr methods "init_dialog";
      if list_truthy files then mret (true, extend_column2 files self)
      else exec_ rest self
  | press_load_annotations files :: rest =>
      if list_truthy files then mret (true, extend_column2 files self)
      else exec_ rest self
  end.

End FileLoader.

(** ** The analysis threads of [library/qt_threading] *)

(** What [AnalysisOptions.prepare_options(results_folder)] hands to a thread,
    as far as this page fills it in. *)
Record analysis_options : Type := AnalysisOptions {
  options_results_folder : string;
  options_annotation_type : option string
}.

(** The constructor call that made the thread, with its arguments. *)
Inductive session : Type :=
  | VolumeThread (options : analysis_options)
      (column1_files column2_files : list string)
      (annotation_data : option (gmap string region))
  | GraphThread (options : analysis_options) (graph_format : string)
      (column1_files column2_files : list string).

Record thread : Type := Thread {
  target : session;
  connections : list (string * string);
  started : bool
}.

Definition connect (signal slot : string) (th : thread) : thread :=
  Thread (target th) (connections th ++ [(signal, slot)]) (started th).

Definition start (th : thread) : thread :=
  Thread (target th) (connections th) true.

Definition is_volume_session (th : thread) : bool :=
  match target th with
  | VolumeThread _ _ _ _ => true
  | GraphThread _ _ _ _ => false
  end.

Definition is_graph_session (th : thread) : bool :=
  match target th with
  | VolumeThread _ _ _ _ => false
  | GraphThread _ _ _ _ => true
  end.

(** ** class AnalysisPage(QWidget) *)

Module AnalysisPage.

(** [graphFormat] is the current text of the format combo box of the graph
    options tab; [a_thread] is [None] until an [initialize_*] method sets
    the attribute. *)
Record t : Type := mk {
  analyzed : bool;
  Loading : LoadingWidget.t;
  graphFormat : string;
  graphTab_enabled : bool;
  a_thread : option thread
}.

Definition set_analyzed (v : bool) (p : t) : t :=
  mk v (Loading p) (graphFormat p) (graphTab_enabled p) (a_thread p).

Definition set_Loading (v : LoadingWidget.t) (p : t) : t :=
  mk (analyzed p) v (graphFormat p) (graphTab_enabled p) (a_thread p).

Definition set_graphTab_enabled (v : bool) (p : t) : t :=
  mk (analyzed p) (Loading p) (graphFormat p) v (a_thread p).

Definition set_a_thread (v : option thread) (p : t) : t :=
  mk (analyzed p) (Loading p) (graphFormat p) (graphTab_enabled p) v.

(** [AnalysisPage()]; [graph_format] is the entry the format combo box of
    [GraphOptions] starts on. *)
Definition new (results_dir style graph_format : string) : t :=
  mk false (LoadingWidget.new results_dir style) graph_format false None.

Definition dataset_text (p : t) : string :=
  datasetType_currentText (LoadingWidget.datasetType (Loading p)).

Definition annotation_text (p : t) : string :=
  annotationType_currentText (LoadingWidget.annotationType (Loading p)).

(** *** File checks *)

Definition column_file_check (p : t) : bool :=
  Nat.eqb (length (LoadingWidget.column1_files (Loading p)))
          (length (LoadingWidget.column2_files (Loading p))).

Definition file_check (p : t) : bool :=
  if negb (list_truthy (LoadingWidget.column1_files (Loading p))) then false
  else if String.eqb (dataset_text p) "Volume"
          && negb (String.eqb (annotation_text p) "None")
          && (negb (column_file_check p)
              || catalog_truthy (LoadingWidget.annotation_data (Loading p)))
  then false
  else if String.eqb (dataset_text p) "Graph"
          && String.eqb (graphFormat p) "CSV"
          && negb (column_file_check p)
  then false
  else true.

Definition analysis_warning : dialog :=
  QMessageBox "Load all files to run analysis.".

(** *** Analysis processing *)

Definition initialize_volume_analysis (p : t) : t :=
  let analysis_options :=
    AnalysisOptions (LoadingWidget.results_folder (Loading p))
                    (Some (annotation_text p)) in
  set_a_thread
    (Some (Thread (VolumeThread analysis_options
                     (LoadingWidget.column1_files (Loading p))
                     (LoadingWidget.column2_files (Loading p))
                     (LoadingWidget.annotation_data (Loading p)))
                  [] false)) p.

Definition initialize_graph_analysis (p : t) : t :=
  let analysis_options :=
    AnalysisOptions (LoadingWidget.results_folder (Loading p)) None in
  let graph_options := graphFormat p in
  set_a_thread
    (Some (Thread (GraphThread analysis_options graph_options
                     (LoadingWidget.column1_files (Loading p))
                     (LoadingWidget.column2_files (Loading p)))
                  [] false)) p.

Definition run_analysis (p : t) : outcome (t * list dialog) :=
  if analyzed p then mret (p, [analysis_warning])
  else if negb (file_check p) then mret (p, [analysis_warning])
  else
    let p :=
      if String.eqb (dataset_text p) "Volume" then initialize_volume_analysis p
      else if String.eqb (dataset_text p) "Graph "
           then initialize_graph_analysis p
           else p in
    th ← match a_thread p with
         | Some th => mret th
         | None => Raise (AttributeError "a_thread")
         end;
    let th := connect "button_lock" "button_locking" th in
    let th := connect "selection_signal" "update_row_selection" th in
    let th := connect "analysis_status" "update_status" th in
    let th := start th in
    let p := set_a_thread (Some th) p in
    mret (set_analyzed true p, []).

(** *** File loading *)

(** What the user picks in the native file dialogs of [helpers] and how
    the [FileLoader] dialog is driven, should it open. *)
Record picker : Type := Picker {
  load_volumes : list string;
  load_graphs : list string;
  loader_actions : list FileLoader.action
}.

Definition truthy_or_None (files : list string) : option (list string) :=
  if list_truthy files then Some files else None.

(** The first half of [load_files]: which dialog is asked, and the files
    bound to [c1files] and [c2files]. *)
Definition select_files (ui : picker) (p : t)
  : outcome (option (list string) * option (list string)) :=
  let dataset_type := dataset_text p in
  let annotation := annotation_text p in
  let graph_format := graphFormat p in
  if String.eqb annotation "None" && String.eqb dataset_type "Volume"
  then mret (Some (load_volumes ui), None)
  else if String.eqb dataset_type "Graph"
          && negb (String.eqb graph_format "CSV")
  then mret (Some (load_graphs ui), None)
  else
    loader ← FileLoader.init dataset_type annotation graph_format;
    '(accepted, loader) ← FileLoader.exec_ (loader_actions ui) loader;
    if accepted : bool
    then mret (truthy_or_None (FileLoader.column1_files loader),
               truthy_or_None (FileLoader.column2_files loader))
    else mret (None, None).

(** The second half of [load_files], from [if self.analyzed:] on. *)
Definition store_files (c1files c2files : option (list string)) (p : t) : t :=
  let p := if analyzed p
           then set_analyzed false
                  (set_Loading (LoadingWidget.clear_files (Loading p)) p)
           else p in
  let p := if opt_list_truthy c1files then
             let l := Loading p in
             let l := LoadingWidget.set_column1_files
                        (LoadingWidget.column1_files l ++ default [] c1files) l in
             set_Loading (LoadingWidget.add_column1_files l) p
           else p in
  if opt_list_truthy c2files then
    let l := Loading p in
    let l := LoadingWidget.set_column2_files
               (LoadingWidget.column2_files l ++ default [] c2files) l in
    set_Loading (LoadingWidget.add_column2_files l) p
  else p.

Definition load_files (ui : picker) (p : t) : outcome t :=
  picked ← select_files ui p;
  mret (store_files picked.1 picked.2 p).

(** *** Tab viewing *)

Definition update_table_view (p : t) : t :=
  let sheet := LoadingWidget.fileSheet (Loading p) in
  if String.eqb (dataset_text p) "Graph" then
    let sheet := if negb (String.eqb (graphFormat p) "CSV")
                 then FileSheet.init_default sheet
                 else FileSheet.init_csv sheet in
    set_graphTab_enabled true
      (set_Loading (LoadingWidget.set_fileSheet sheet (Loading p)) p)
  else if negb (String.eqb (annotation_text p) "None") then
    set_graphTab_enabled false
      (set_Loading (LoadingWidget.set_fileSheet
                      (FileSheet.init_annotation sheet) (Loading p)) p)
  else set_graphTab_enabled false p.

(** *** The combo-box signals *)

(** Slots of [datasetType.currentIndexChanged], in connection order:
    [LoadingWidget.file_type_options] is connected when the loading widget
    is built, [update_table_view] afterwards by the page. *)
Definition datasetType_changed (p : t) : t :=
  update_table_view
    (set_Loading (LoadingWidget.file_type_options (Loading p)) p).

(** The user picks [d] in the dataset combo box; the signal fires only when
    the entry changes. *)
Definition select_datasetType (d : DatasetType) (p : t) : t :=
  if bool_decide (LoadingWidget.datasetType (Loading p) = d) then p
  else datasetType_changed
         (set_Loading (LoadingWidget.set_datasetType d (Loading p)) p).

(** Slots of [annotationType.currentIndexChanged], in connection order. *)
Definition annotationType_changed (p : t) : t :=
  set_Loading
    (LoadingWidget.update_JSON
       (LoadingWidget.annotation_options (Loading p))) p.

Definition select_annotationType (a : AnnotationType) (p : t) : t :=
  if bool_decide (LoadingWidget.annotationType (Loading p) = a) then p
  else annotationType_changed
         (set_Loading (LoadingWidget.set_annotationType a (Loading p)) p).

End AnalysisPage.

(** ** The schema table of the specification *)

(** The schema the specification assigns to a mode, written from the table
    of its data model for comparison with what the slots do.  The graph
    format is the text of the format combo box: [CSV] or any other. *)
Record Schema : Type := mkSchema {
  column_count : Z;
  requires_column2 : bool;
  requires_catalog : bool
}.

Definition spec_resolve (d : DatasetType) (a : AnnotationType)
    (graph_format : string) : Schema :=
  match d, a with
  | Volume, Ann_None => mkSchema 2 false false
  | Volume, (Ann_ID | Ann_RGB) => mkSchema 4 true true
  | Graph, _ =>
      if String.eqb graph_format "CSV" then mkSchema 3 true false
      else mkSchema 2 false false
  end.

(** Does a path contain a slash? *)
Fixpoint contains_slash (p : string) : bool :=
  match p with
  | EmptyString => false
  | String c r => Ascii.eqb c "/"%char || contains_slash r
  end.

(** "Exactly one top-level key, and it equals the catalog marker." *)
Definition valid_document (parsed : gmap string (gmap string region)) : Prop :=
  size parsed = 1%nat ∧ catalog_marker ∈ dom parsed.

(** ** Sample batches *)

(** A page that has not run an analysis, with the given mode, columns,
    catalog and sheet. *)
Definition batch (d : DatasetType) (a : AnnotationType) (graph_format : string)
    (c1 c2 : list string) (catalog : option (gmap string region))
    (sheet : FileSheet.t) : AnalysisPage.t :=
  AnalysisPage.mk false
    (LoadingWidget.mk "/results" c1 c2 catalog d a
       (bool_decide (d = Graph)) (bool_decide (a ≠ Ann_None))
       "None" "" "" sheet)
    graph_format (bool_decide (d = Graph)) None.

Definition default_header : list string := ["File Name"; "File Status"].

Definition annotation_header : list string :=
  ["File Name"; "Annotation File Name"; "Regions Processed"; "File Status"].

Definition cortex_catalog : gmap string region :=
  {[ "cortex" := Region [(255, 0, 0)] ]}.

(** One volume with its ID annotation volume, in the four-column sheet. *)
Definition annotated_sheet (progress : string) : FileSheet.t :=
  FileSheet.mk 4 annotation_header
    [ {[ 0 := "brain.nii"; 1 := "brain_ids.nii"; 2 := progress;
         3 := "Queued..." ]} ].

Definition annotated_batch (catalog : option (gmap string region))
  : AnalysisPage.t :=
  batch Volume Ann_ID "GraphML" ["/data/brain.nii"] ["/data/brain_ids.nii"]
        catalog
        (annotated_sheet (if catalog_truthy catalog then "0/1" else "Load JSON!")).

(** Two annotated volumes. *)
Definition two_annotated_volumes : LoadingWidget.t :=
  LoadingWidget.mk "/results"
    ["/data/a.nii"; "/data/b.nii"] ["/data/a_ids.nii"; "/data/b_ids.nii"]
    None Volume Ann_ID false true "None" "" ""
    (FileSheet.mk 4 annotation_header
       [ {[ 0 := "a.nii"; 1 := "a_ids.nii"; 2 := "Load JSON!"; 3 := "Queued..." ]};
         {[ 0 := "b.nii"; 1 := "b_ids.nii"; 2 := "Load JSON!"; 3 := "Queued..." ]} ]).

(** Two CSV graphs, vertices and edges. *)
Definition two_csv_graphs : LoadingWidget.t :=
  LoadingWidget.mk "/results"
    ["/data/a_v.csv"; "/data/b_v.csv"] ["/data/a_e.csv"; "/data/b_e.csv"]
    None Graph Ann_None true false "None" "" ""
    (FileSheet.mk 3
       ["File Name - Vertices"; "File Name - Edges"; "File Status"]
       [ {[ 0 := "a_v.csv"; 1 := "a_e.csv"; 2 := "Queued..." ]};
         {[ 0 := "b_v.csv"; 1 := "b_e.csv"; 2 := "Queued..." ]} ]).

(** One plain volume. *)
Definition volume_batch : AnalysisPage.t :=
  batch Volume Ann_None "GraphML" ["/data/a.nii"] [] None
    (FileSheet.mk 2 default_header [ {[ 0 := "a.nii"; 1 := "Queued..." ]} ]).

(** One graph file in a single-file format. *)
Definition graph_batch : AnalysisPage.t :=
  batch Graph Ann_None "GraphML" ["/data/net.graphml"] [] None
    (FileSheet.mk 2 default_header [ {[ 0 := "net.graphml"; 1 := "Queued..." ]} ]).

(** What the user picks in the scenarios below. *)
Definition picks : AnalysisPage.picker :=
  AnalysisPage.Picker ["/data/a.nii"; "/data/b.nii"] ["/data/net.graphml"] [].

(** [n] presses of the Analyze button; the dialogs of all of them. *)
Fixpoint run_requests (n : nat) (p : AnalysisPage.t)
  : outcome (AnalysisPage.t * list dialog) :=
  match n with
  | O => mret (p, [])
  | S n' =>
      '(p1, shown1) ← AnalysisPage.run_analysis p;
      '(p2, shown2) ← run_requests n' p1;
      mret (p2, (shown1 ++ shown2)%list)
  end.

(** A graph batch loaded and run on a page that ran a volume batch before:
    load volumes, analyze, switch the dataset type to Graph, load a graph,
    analyze. *)
Definition graph_run_after_volume_run
  : outcome (AnalysisPage.t * list dialog) :=
  p ← AnalysisPage.load_files picks (AnalysisPage.new "/results" "" "GraphML");
  '(p, _) ← AnalysisPage.run_analysis p;
  p ← AnalysisPage.load_files picks (AnalysisPage.select_datasetType Graph p);
  AnalysisPage.run_analysis p.

(** The three connections and the start that close [run_analysis]. *)
Definition wired (th : thread) : thread :=
  start (connect "analysis_status" "update_status"
          (connect "selection_signal" "update_row_selection"
            (connect "button_lock" "button_locking" th))).

(** The page [p] with the three mode inputs set to [d], [a] and
    [graph_format]. *)
Definition with_mode (d : DatasetType) (a : AnnotationType)
    (graph_format : string) (p : AnalysisPage.t) : AnalysisPage.t :=
  AnalysisPage.mk (AnalysisPage.analyzed p)
    (LoadingWidget.set_annotationType a
       (LoadingWidget.set_datasetType d (AnalysisPage.Loading p)))
    graph_format (AnalysisPage.graphTab_enabled p) (AnalysisPage.a_thread p).

(** The format of the sheet of a page: column count and header. *)
Definition sheet_format (p : AnalysisPage.t) : Z * list string :=
  let sheet := LoadingWidget.fileSheet (AnalysisPage.Loading p) in
  (FileSheet.columnCount sheet, FileSheet.header sheet).

(** An ID batch with no catalog yet. *)
Definition id_widget : LoadingWidget.t :=
  LoadingWidget.mk "/results" ["/data/brain.nii"] ["/data/brain_ids.nii"]
    None Volume Ann_ID false true "None" "" ""
    (annotated_sheet "Load JSON!").

(** The same batch once a catalog without regions has been loaded from
    [/data/empty.json]. *)
Definition empty_catalog_widget : LoadingWidget.t :=
  LoadingWidget.mk "/results" ["/data/brain.nii"] ["/data/brain_ids.nii"]
    (Some ∅) Volume Ann_ID false true "empty.json" "" ""
    (annotated_sheet "Load JSON!").

(** An RGB batch with no catalog yet. *)
Definition rgb_widget : LoadingWidget.t :=
  LoadingWidget.mk "/results" ["/data/brain.nii"] ["/data/brain_rgb"]
    None Volume Ann_RGB false true "None" "" ""
    (annotated_sheet "Load JSON!").

(** A catalog in which two regions name the same colour. *)
Definition clashing_catalog : gmap string region :=
  {[ "cortex" := Region [(255, 0, 0)];
     "thalamus" := Region [(0, 255, 0); (255, 0, 0)] ]}.

Definition annotation_document (catalog : gmap string region)
  : gmap string (gmap string region) :=
  {[ catalog_marker := catalog ]}.

(** The page after the plain volume batch has been analyzed. *)
Definition analyzed_volume_batch : AnalysisPage.t :=
  match AnalysisPage.run_analysis volume_batch with
  | Return r => r.1
  | Raise _ => volume_batch
  end.

(** What [load_files] does first on a page that has been analyzed. *)
Definition cleared (p : AnalysisPage.t) : AnalysisPage.t :=
  AnalysisPage.set_analyzed false
    (AnalysisPage.set_Loading
       (LoadingWidget.clear_files (AnalysisPage.Loading p)) p).

Definition is_graph (d : DatasetType) : bool :=
  match d with
  | Graph => true
  | Volume => false
  end.

(** The header labels the source gives the sheet of each table row. *)
Definition table_header (d : DatasetType) (a : AnnotationType)
    (graph_format : string) : list string :=
  match d, a with
  | Volume, Ann_None => default_header
  | Volume, (Ann_ID | Ann_RGB) => annotation_header
  | Graph, _ =>
      if String.eqb graph_format "CSV"
      then ["File Name - Vertices"; "File Name - Edges"; "File Status"]
      else default_header
  end.

(** The sheet one pass of the loop of [add_files] writes into: a row is
    appended when the index has reached the row count. *)
Definition with_row (i : Z) (s : FileSheet.t) : FileSheet.t :=
  if bool_decide (i + 1 > FileSheet.rowCount s)
  then FileSheet.insertRow (FileSheet.rowCount s) s
  else s.

(** What a loading widget holds besides the two columns and the sheet: the
    results folder, the mode and the catalog. *)
Definition settings (s : LoadingWidget.t)
  : string * DatasetType * AnnotationType * option (gmap string region) :=
  (LoadingWidget.results_folder s, LoadingWidget.datasetType s,
   LoadingWidget.annotationType s, LoadingWidget.annotation_data s).

(** The files [load_files] gets from [helpers] in a single-column mode. *)
Definition picked_files (ui : AnalysisPage.picker) (d : DatasetType)
  : list string :=
  match d with
  | Volume => AnalysisPage.load_volumes ui
  | Graph => AnalysisPage.load_graphs ui
  end.

(** "Exactly one top-level key, and it equals the catalog marker", for the
    members of a parsed mapping. *)
Definition valid_members (members : gmap string json_member) : Prop :=
  size members = 1%nat ∧ catalog_marker ∈ dom members.

(** The parsed annotation file of a catalog. *)
Definition catalog_document (catalog : gmap string region)
  : outcome json_document :=
  Return (JSON_object {[ catalog_marker := Member_mapping catalog ]}).

(** The widget a successful load of a catalog leaves (lines 521-527). *)
Definition committed (loaded_file : string) (regions : gmap string region)
    (s : LoadingWidget.t) : LoadingWidget.t :=
  LoadingWidget.update_queue
    (LoadingWidget.set_annotation_data (Some regions)
       (LoadingWidget.set_loadedJSON_text (basename loaded_file)
          (LoadingWidget.set_loadedJSON_styleSheet
             (LoadingWidget.JSONdefault s) s))).

(** Two volumes loaded on a fresh page and analyzed. *)
Definition analyzed_volumes : outcome AnalysisPage.t :=
  p ← AnalysisPage.load_files picks (AnalysisPage.new "/results" "" "GraphML");
  '(p, _) ← AnalysisPage.run_analysis p;
  mret p.

(** The same, with ID then picked in the annotation combo box. *)
Definition analyzed_then_ID : outcome AnalysisPage.t :=
  p ← analyzed_volumes;
  mret (AnalysisPage.select_annotationType Ann_ID p).

(** What the user picks in the load request after the analysis. *)
Definition later_picks : AnalysisPage.picker :=
  AnalysisPage.Picker ["/data/c.nii"] [] [].

(** * Properties *)

(** ** The file sheet *)

Section FileSheetFacts.

Import FileSheet.

Lemma setItem_rowCount row col text s :
  rowCount (setItem row col text s) = rowCount s.
Proof.
  unfold setItem, rowCount. case_bool_decide; [simpl | done].
  by rewrite length_alter.
Qed.

Lemma setItem_columnCount row col text s :
  columnCount (setItem row col text s) = columnCount s.
Proof. unfold setItem. by case_bool_decide. Qed.

Lemma item_setItem_eq row col text s :
  0 ≤ row < rowCount s → 0 ≤ col < columnCount s →
  item row col (setItem row col text s) = Some text.
Proof.
  intros Hrow Hcol. unfold setItem, item.
  rewrite !bool_decide_eq_true_2 by lia. simpl.
  rewrite list_lookup_alter_eq.
  destruct (rows s !! Z.to_nat row) as [r|] eqn:Hr; simpl.
  - by rewrite lookup_insert_eq.
  - apply lookup_ge_None in Hr. unfold rowCount in Hrow. lia.
Qed.

Lemma item_setItem_other_column row row' col col' text s :
  col ≠ col' → item row col (setItem row' col' text s) = item row col s.
Proof.
  intros Hne. unfold setItem.
  case_bool_decide as Hin; [| done].
  unfold item; simpl. case_bool_decide; [| done].
  destruct (decide (Z.to_nat row' = Z.to_nat row)) as [Heq | Hneq].
  - rewrite Heq, list_lookup_alter_eq.
    destruct (rows s !! Z.to_nat row); simpl; [| done].
    by rewrite lookup_insert_ne.
  - by rewrite list_lookup_alter_ne.
Qed.

Lemma item_setItem_same_text row row' col text s :
  item row col s = Some text →
  item row col (setItem row' col text s) = Some text.
Proof.
  intros Hitem. unfold setItem.
  case_bool_decide as Hin; [| done].
  unfold item in *; simpl. case_bool_decide; [| done].
  destruct (decide (Z.to_nat row' = Z.to_nat row)) as [Heq | Hneq].
  - rewrite Heq, list_lookup_alter_eq.
    destruct (rows s !! Z.to_nat row); simpl in *; [| done].
    by rewrite lookup_insert_eq.
  - by rewrite list_lookup_alter_ne.
Qed.

Lemma set_rows_counts col text idxs s :
  rowCount (LoadingWidget.set_rows col text idxs s) = rowCount s
  ∧ columnCount (LoadingWidget.set_rows col text idxs s) = columnCount s.
Proof.
  revert s. induction idxs as [| i idxs IH]; intros s; simpl; [done |].
  destruct (IH (setItem i col text s)) as [-> ->].
  by rewrite setItem_rowCount, setItem_columnCount.
Qed.

Lemma set_rows_keeps col text idxs s row :
  item row col s = Some text →
  item row col (LoadingWidget.set_rows col text idxs s) = Some text.
Proof.
  revert s. induction idxs as [| i idxs IH]; intros s Hitem; simpl; [done |].
  by apply IH, item_setItem_same_text.
Qed.

Lemma set_rows_hit col text idxs s row :
  row ∈ idxs → 0 ≤ row < rowCount s → 0 ≤ col < columnCount s →
  item row col (LoadingWidget.set_rows col text idxs s) = Some text.
Proof.
  revert s. induction idxs as [| i idxs IH]; intros s Hin Hrow Hcol; simpl.
  - by apply elem_of_nil in Hin.
  - apply elem_of_cons in Hin as [<- | Hin].
    + by apply set_rows_keeps, item_setItem_eq.
    + apply IH; [done | |].
      * by rewrite setItem_rowCount.
      * by rewrite setItem_columnCount.
Qed.

Lemma set_rows_other_column col col' text idxs s row :
  col ≠ col' →
  item row col (LoadingWidget.set_rows col' text idxs s) = item row col s.
Proof.
  intros Hne. revert s. induction idxs as [| i idxs IH]; intros s; simpl.
  - done.
  - by rewrite IH, item_setItem_other_column.
Qed.

(** Formatting empties every cell and keeps the rows. *)
Lemma set_format_rows n labels s :
  0 ≤ n → rows (set_format n labels s) = (λ _, ∅) <$> rows s.
Proof.
  intros Hn. unfold set_format, setHorizontalHeaderLabels, setColumnCount.
  repeat (rewrite bool_decide_eq_true_2 by lia; simpl).
  rewrite <- list_fmap_compose. apply list_fmap_ext; intros i r _. simpl.
  apply map_empty_filter_2. intros k x Hk. simpl.
  apply map_lookup_filter_Some in Hk as [_ Hk]. simpl in Hk. lia.
Qed.

Lemma set_format_columnCount n labels s :
  0 ≤ n → columnCount (set_format n labels s) = n.
Proof.
  intros Hn. unfold set_format, setHorizontalHeaderLabels, setColumnCount.
  by repeat (rewrite bool_decide_eq_true_2 by lia; simpl).
Qed.

Lemma set_format_header n labels s :
  0 ≤ n → header (set_format n labels s) = take (Z.to_nat n) labels.
Proof.
  intros Hn. unfold set_format, setHorizontalHeaderLabels, setColumnCount.
  by repeat (rewrite bool_decide_eq_true_2 by lia; simpl).
Qed.

(** A format is decided by its arguments and the number of rows. *)
Lemma set_format_eq n labels s :
  0 ≤ n →
  set_format n labels s
  = mk n (take (Z.to_nat n) labels) ((λ _, ∅) <$> rows s).
Proof.
  intros Hn.
  pose proof (set_format_rows n labels s Hn) as Hr.
  pose proof (set_format_columnCount n labels s Hn) as Hc.
  pose proof (set_format_header n labels s Hn) as Hh.
  destruct (set_format n labels s); simpl in *. by subst.
Qed.

Lemma insertRow_columnCount row s :
  columnCount (insertRow row s) = columnCount s.
Proof. unfold insertRow. by case_bool_decide. Qed.

Lemma add_files_columnCount col i files s :
  columnCount (LoadingWidget.add_files col i files s) = columnCount s.
Proof.
  revert i s. induction files as [| f files IH]; intros i s; simpl; [done |].
  rewrite IH, setItem_columnCount.
  case_bool_decide; [apply insertRow_columnCount | done].
Qed.

Lemma fill_column_counts col text s :
  rowCount (LoadingWidget.fill_column col text s) = rowCount s
  ∧ columnCount (LoadingWidget.fill_column col text s) = columnCount s.
Proof. apply set_rows_counts. Qed.

Lemma init_default_eq s :
  init_default s = mk 2 default_header ((λ _, ∅) <$> rows s).
Proof. unfold init_default. by rewrite set_format_eq by lia. Qed.

Lemma init_annotation_eq s :
  init_annotation s = mk 4 annotation_header ((λ _, ∅) <$> rows s).
Proof. unfold init_annotation. by rewrite set_format_eq by lia. Qed.

Lemma init_csv_eq s :
  init_csv s
  = mk 3 ["File Name - Vertices"; "File Name - Edges"; "File Status"]
       ((λ _, ∅) <$> rows s).
Proof. unfold init_csv. by rewrite set_format_eq by lia. Qed.

End FileSheetFacts.

(** Rewrites every formatting call into the sheet it builds. *)
Ltac format_sheets :=
  rewrite ?init_default_eq, ?init_annotation_eq, ?init_csv_eq.

(** ** The pre-run file check *)

Section FileCheck.

Import AnalysisPage.

Lemma file_check_no_files p :
  LoadingWidget.column1_files (Loading p) = [] → file_check p = false.
Proof. intros H. unfold file_check. by rewrite H. Qed.

(** Under an annotated volume mode the check passes exactly when the
    columns pair up and the catalog is absent or empty. *)
Lemma file_check_annotated_volume p :
  LoadingWidget.datasetType (Loading p) = Volume →
  LoadingWidget.annotationType (Loading p) ≠ Ann_None →
  file_check p
  = list_truthy (LoadingWidget.column1_files (Loading p))
    && column_file_check p
    && negb (catalog_truthy (LoadingWidget.annotation_data (Loading p))).
Proof.
  intros Hd Ha. unfold file_check, dataset_text, annotation_text.
  rewrite Hd.
  destruct (LoadingWidget.annotationType (Loading p)); [done | |]; simpl;
    destruct (list_truthy _), (column_file_check p), (catalog_truthy _); done.
Qed.

Lemma file_check_unpaired p :
  requires_column2
    (spec_resolve (LoadingWidget.datasetType (Loading p))
                  (LoadingWidget.annotationType (Loading p))
                  (graphFormat p)) = true →
  length (LoadingWidget.column1_files (Loading p))
    ≠ length (LoadingWidget.column2_files (Loading p)) →
  file_check p = false.
Proof.
  intros Hreq Hlen.
  assert (column_file_check p = false) as Hcheck.
  { unfold column_file_check. by apply Nat.eqb_neq. }
  unfold file_check, dataset_text, annotation_text.
  destruct (list_truthy _); [simpl | done].
  rewrite Hcheck.
  destruct (LoadingWidget.datasetType (Loading p)),
           (LoadingWidget.annotationType (Loading p));
    simpl in *; try done;
    destruct (String.eqb (graphFormat p) "CSV"); simpl in *; done.
Qed.

End FileCheck.

(** C1: under an annotated volume mode with paired columns, the check is
    claimed to pass with a non-empty catalog and to fail without one.  The
    code does the reverse: with one volume, one annotation volume and a
    one-region catalog loaded, [file_check] answers [False] and the run
    request only shows the load-files warning; with no catalog it answers
    [True]. *)
Theorem file_check_loaded_catalog_blocks_run :
  let p := annotated_batch (Some cortex_catalog) in
  AnalysisPage.file_check p = false
  ∧ AnalysisPage.run_analysis p = Return (p, [AnalysisPage.analysis_warning])
  ∧ AnalysisPage.file_check (annotated_batch None) = true.
Proof. by vm_compute. Qed.

(** C5: the file check fails whenever column 1 is empty, and, under a
    schema that requires column 2 (annotated volume, or CSV graph), whenever
    the two columns differ in length. *)
Theorem file_check_rejects_incomplete (p : AnalysisPage.t) :
  (LoadingWidget.column1_files (AnalysisPage.Loading p) = [] →
   AnalysisPage.file_check p = false)
  ∧ (requires_column2
       (spec_resolve (LoadingWidget.datasetType (AnalysisPage.Loading p))
                     (LoadingWidget.annotationType (AnalysisPage.Loading p))
                     (AnalysisPage.graphFormat p)) = true →
     length (LoadingWidget.column1_files (AnalysisPage.Loading p))
       ≠ length (LoadingWidget.column2_files (AnalysisPage.Loading p)) →
     AnalysisPage.file_check p = false).
Proof. split; [apply file_check_no_files | apply file_check_unpaired]. Qed.

Lemma file_check_rejects_incomplete_witness :
  AnalysisPage.file_check
    (batch Graph Ann_None "CSV" [] [] None FileSheet.new) = false
  ∧ AnalysisPage.file_check
      (batch Volume Ann_RGB "GraphML" ["/data/a.nii"; "/data/b.nii"]
             ["/data/a_rgb"] None FileSheet.new) = false.
Proof.
  split.
  - apply (proj1 (file_check_rejects_incomplete
                    (batch Graph Ann_None "CSV" [] [] None FileSheet.new))).
    reflexivity.
  - apply (proj2 (file_check_rejects_incomplete
                    (batch Volume Ann_RGB "GraphML" ["/data/a.nii"; "/data/b.nii"]
                           ["/data/a_rgb"] None FileSheet.new))).
    + reflexivity.
    + simpl. lia.
Defined.

(** ** Starting a session *)

Section RunAnalysis.

Import AnalysisPage.

(** A checked volume batch gets a fresh volume session, wired and started. *)
Lemma run_analysis_volume p :
  analyzed p = false → file_check p = true →
  LoadingWidget.datasetType (Loading p) = Volume →
  run_analysis p
  = Return (set_analyzed true
              (set_a_thread
                 (Some (wired (Thread
                    (VolumeThread
                       (AnalysisOptions
                          (LoadingWidget.results_folder (Loading p))
                          (Some (annotation_text p)))
                       (LoadingWidget.column1_files (Loading p))
                       (LoadingWidget.column2_files (Loading p))
                       (LoadingWidget.annotation_data (Loading p)))
                    [] false))) p), []).
Proof.
  intros Han Hfc Hd. unfold run_analysis, dataset_text.
  by rewrite Han, Hfc, Hd.
Qed.

(** A checked graph batch gets no session of its own: the text compared
    with is not an entry of the combo box, so [a_thread] is used as it
    was left. *)
Lemma run_analysis_graph p :
  analyzed p = false → file_check p = true →
  LoadingWidget.datasetType (Loading p) = Graph →
  run_analysis p
  = match a_thread p with
    | None => Raise (AttributeError "a_thread")
    | Some th =>
        Return (set_analyzed true (set_a_thread (Some (wired th)) p), [])
    end.
Proof.
  intros Han Hfc Hd. unfold run_analysis, dataset_text.
  rewrite Han, Hfc, Hd. simpl. by destruct (a_thread p).
Qed.

Lemma run_analysis_analyzed p :
  analyzed p = true → run_analysis p = Return (p, [analysis_warning]).
Proof. intros Han. unfold run_analysis. by rewrite Han. Qed.

End RunAnalysis.

(** C2: a run request on a checked, not yet analyzed batch is claimed to
    start a session of the current dataset type.  Under dataset type Graph
    the code builds no graph session: on a fresh page the request faults on
    the missing [a_thread] attribute, and on a page that ran a volume batch
    before it starts that old volume session again. *)
Theorem run_analysis_graph_builds_no_graph_session :
  AnalysisPage.file_check graph_batch = true
  ∧ AnalysisPage.run_analysis graph_batch = Raise (AttributeError "a_thread")
  ∧ (r ← graph_run_after_volume_run;
     mret (LoadingWidget.column1_files (AnalysisPage.Loading r.1),
           target <$> AnalysisPage.a_thread r.1))
    = Return (["/data/net.graphml"],
              Some (VolumeThread (AnalysisOptions "/results" (Some "None"))
                      ["/data/a.nii"; "/data/b.nii"] [] None)).
Proof. by vm_compute. Qed.

(** ** Removing a row *)

Section RemoveFile.

Import LoadingWidget.

Lemma py_del_in_range {A : Type} (l : list A) (i : Z) :
  0 ≤ i < Z.of_nat (length l) → py_del l i = Return (delete (Z.to_nat i) l).
Proof.
  intros Hi. unfold py_del.
  rewrite (bool_decide_eq_false_2 (i < 0)) by lia.
  by rewrite bool_decide_eq_true_2 by lia.
Qed.

Lemma set_fileSheet_id s : set_fileSheet (fileSheet s) s = s.
Proof. by destruct s. Qed.

Lemma removeRow_out_of_range index sheet :
  FileSheet.rowCount sheet ≤ index → FileSheet.removeRow index sheet = sheet.
Proof.
  intros Hi. unfold FileSheet.removeRow.
  by rewrite bool_decide_eq_false_2 by lia.
Qed.

(** The three-column path: the row and both entries go. *)
Lemma remove_file_csv s index :
  FileSheet.columnCount (fileSheet s) = 3 →
  0 ≤ index < Z.of_nat (length (column1_files s)) →
  index < Z.of_nat (length (column2_files s)) →
  remove_file true index s
  = Return (set_column2_files (delete (Z.to_nat index) (column2_files s))
              (set_column1_files (delete (Z.to_nat index) (column1_files s))
                 (set_fileSheet
                    (FileSheet.removeRow index (fileSheet s)) s))).
Proof.
  intros Hcols H1 H2. unfold remove_file. simpl.
  rewrite (bool_decide_eq_true_2 (index < _)) by lia.
  rewrite py_del_in_range by lia. simpl.
  rewrite (bool_decide_eq_true_2 (_ = 3)) by done.
  rewrite (bool_decide_eq_true_2 (index < _)) by lia.
  by rewrite py_del_in_range by lia.
Qed.

(** Beyond the last row and both columns nothing changes. *)
Lemma remove_file_out_of_range s index :
  FileSheet.rowCount (fileSheet s) ≤ index →
  Z.of_nat (length (column1_files s)) ≤ index →
  Z.of_nat (length (column2_files s)) ≤ index →
  remove_file true index s = Return s.
Proof.
  intros Hrows H1 H2. unfold remove_file.
  rewrite removeRow_out_of_range, set_fileSheet_id by done.
  rewrite (bool_decide_eq_false_2 (index < Z.of_nat (length (column1_files s))))
    by lia.
  simpl. case_bool_decide; [| done].
  by rewrite bool_decide_eq_false_2 by lia.
Qed.

(** Without a selection the button does nothing. *)
Lemma remove_file_no_selection s index : remove_file false index s = Return s.
Proof. done. Qed.

(** With any other column count than three, column 2 is never touched. *)
Lemma remove_file_keeps_column2 s hasSelection index s' :
  FileSheet.columnCount (fileSheet s) ≠ 3 →
  remove_file hasSelection index s = Return s' →
  column2_files s' = column2_files s.
Proof.
  intros Hcols. unfold remove_file.
  destruct hasSelection; [| by intros [= <-]].
  rewrite (bool_decide_eq_false_2 (_ = 3)) by done. simpl.
  case_bool_decide.
  - destruct (py_del (column1_files s) index) as [c1 | e]; simpl;
      [by intros [= <-] | done].
  - by intros [= <-].
Qed.

End RemoveFile.

(** C3: removing an in-range row is claimed to delete one entry from each
    column under every schema.  Under the four-column annotation schema the
    code deletes the sheet row and the column-1 entry only: with two
    annotated volumes loaded, removing row 0 leaves one volume and both
    annotation volumes. *)
Theorem remove_file_annotation_keeps_column2 :
  FileSheet.columnCount (LoadingWidget.fileSheet two_annotated_volumes) = 4
  ∧ (s' ← LoadingWidget.remove_file true 0 two_annotated_volumes;
     mret (LoadingWidget.column1_files s', LoadingWidget.column2_files s',
           FileSheet.rowCount (LoadingWidget.fileSheet s')))
    = Return (["/data/b.nii"], ["/data/a_ids.nii"; "/data/b_ids.nii"], 1)
  ∧ (s' ← LoadingWidget.remove_file true 0 two_csv_graphs;
     mret (LoadingWidget.column1_files s', LoadingWidget.column2_files s',
           FileSheet.rowCount (LoadingWidget.fileSheet s')))
    = Return (["/data/b_v.csv"], ["/data/b_e.csv"], 1).
Proof. by vm_compute. Qed.

(** ** Mode changes *)

Section ModeChange.

Import AnalysisPage.

Lemma update_queue_sheet_only s :
  LoadingWidget.update_queue s
  = LoadingWidget.set_fileSheet
      (LoadingWidget.fileSheet (LoadingWidget.update_queue s)) s.
Proof. unfold LoadingWidget.update_queue. by case_bool_decide. Qed.

Lemma add_column1_files_sheet_only s :
  LoadingWidget.add_column1_files s
  = LoadingWidget.set_fileSheet
      (LoadingWidget.fileSheet (LoadingWidget.add_column1_files s)) s.
Proof.
  unfold LoadingWidget.add_column1_files.
  by rewrite update_queue_sheet_only.
Qed.

Lemma add_column2_files_sheet_only s :
  LoadingWidget.add_column2_files s
  = LoadingWidget.set_fileSheet
      (LoadingWidget.fileSheet (LoadingWidget.add_column2_files s)) s.
Proof.
  unfold LoadingWidget.add_column2_files.
  by rewrite update_queue_sheet_only.
Qed.

Lemma update_queue_counts s :
  FileSheet.rowCount (LoadingWidget.fileSheet (LoadingWidget.update_queue s))
    = FileSheet.rowCount (LoadingWidget.fileSheet s)
  ∧ FileSheet.columnCount
      (LoadingWidget.fileSheet (LoadingWidget.update_queue s))
    = FileSheet.columnCount (LoadingWidget.fileSheet s).
Proof.
  unfold LoadingWidget.update_queue.
  case_bool_decide; simpl;
    repeat match goal with
      | |- context [LoadingWidget.fill_column ?c ?t ?s] =>
          destruct (fill_column_counts c t s) as [-> ->]
      end; done.
Qed.

Lemma add_column1_files_columnCount s :
  FileSheet.columnCount
    (LoadingWidget.fileSheet (LoadingWidget.add_column1_files s))
  = FileSheet.columnCount (LoadingWidget.fileSheet s).
Proof.
  unfold LoadingWidget.add_column1_files.
  rewrite (proj2 (update_queue_counts _)). simpl.
  apply add_files_columnCount.
Qed.

(** A change of dataset type empties the registry. *)
Lemma datasetType_changed_clears p :
  let l := Loading (datasetType_changed p) in
  LoadingWidget.column1_files l = []
  ∧ LoadingWidget.column2_files l = []
  ∧ FileSheet.rowCount (LoadingWidget.fileSheet l) = 0.
Proof.
  unfold datasetType_changed, update_table_view, dataset_text, annotation_text,
    LoadingWidget.file_type_options.
  format_sheets. simpl.
  destruct (String.eqb (datasetType_currentText _) "Graph"); simpl.
  - by destruct (String.eqb (graphFormat p) "CSV").
  - by destruct (negb (String.eqb (annotationType_currentText _) "None")).
Qed.

(** A change of annotation type keeps column 1, and keeps column 2 unless
    the new type is None. *)
Lemma annotationType_changed_files p :
  let l := Loading (annotationType_changed p) in
  LoadingWidget.column1_files l = LoadingWidget.column1_files (Loading p)
  ∧ LoadingWidget.column2_files l
    = (if decide (LoadingWidget.annotationType (Loading p) = Ann_None)
       then [] else LoadingWidget.column2_files (Loading p)).
Proof.
  unfold annotationType_changed, LoadingWidget.update_JSON,
    LoadingWidget.annotation_options.
  rewrite add_column1_files_sheet_only.
  destruct (LoadingWidget.annotationType (Loading p)) eqn:Ha; simpl;
    rewrite ?Ha; simpl; done.
Qed.

Lemma update_JSON_fileSheet s :
  LoadingWidget.fileSheet (LoadingWidget.update_JSON s)
  = LoadingWidget.fileSheet s.
Proof.
  unfold LoadingWidget.update_JSON. by destruct (String.eqb _ "None").
Qed.

Lemma annotation_options_columnCount s :
  FileSheet.columnCount
    (LoadingWidget.fileSheet (LoadingWidget.annotation_options s))
  = match LoadingWidget.annotationType s with
    | Ann_None => 2
    | Ann_ID | Ann_RGB => 4
    end.
Proof.
  unfold LoadingWidget.annotation_options.
  rewrite add_column1_files_columnCount.
  destruct (LoadingWidget.annotationType s); case_bool_decide; try done;
    destruct s; simpl; format_sheets; reflexivity.
Qed.

Lemma with_mode_closed
    d a g an rf c1 c2 ad d0 a0 dis vis txt sty def sh gf tab th :
  with_mode d a g
    (mk an (LoadingWidget.mk rf c1 c2 ad d0 a0 dis vis txt sty def sh)
        gf tab th)
  = mk an (LoadingWidget.mk rf c1 c2 ad d a dis vis txt sty def sh) g tab th.
Proof. reflexivity. Qed.

(** The page the slots of a dataset-type change leave behind. *)
Lemma datasetType_changed_closed
    an rf c1 c2 ad d a dis vis txt sty def sh g tab th :
  datasetType_changed
    (mk an (LoadingWidget.mk rf c1 c2 ad d a dis vis txt sty def sh) g tab th)
  = mk an
      (LoadingWidget.mk rf [] [] ad d a (is_graph d)
         (match a with Ann_None => vis | _ => negb (is_graph d) end)
         txt sty def
         (FileSheet.mk (column_count (spec_resolve d a g))
                       (table_header d a g) []))
      g (is_graph d) th.
Proof.
  destruct d, a;
    unfold datasetType_changed, update_table_view, dataset_text,
      annotation_text, LoadingWidget.file_type_options,
      LoadingWidget.clear_files;
    cbn; try destruct (String.eqb g "CSV"); reflexivity.
Qed.

End ModeChange.

(** C4, as the code has it: a change of dataset type resets the registry
    (both columns empty, no row left); a change of annotation type does not:
    it keeps column 1, and keeps column 2 unless the new type is None. *)
Theorem mode_change_registry (p : AnalysisPage.t) :
  (∀ d, d ≠ LoadingWidget.datasetType (AnalysisPage.Loading p) →
     let l := AnalysisPage.Loading (AnalysisPage.select_datasetType d p) in
     LoadingWidget.column1_files l = []
     ∧ LoadingWidget.column2_files l = []
     ∧ FileSheet.rowCount (LoadingWidget.fileSheet l) = 0)
  ∧ (∀ a, a ≠ LoadingWidget.annotationType (AnalysisPage.Loading p) →
     let l := AnalysisPage.Loading (AnalysisPage.select_annotationType a p) in
     LoadingWidget.column1_files l
       = LoadingWidget.column1_files (AnalysisPage.Loading p)
     ∧ LoadingWidget.column2_files l
       = (if decide (a = Ann_None) then []
          else LoadingWidget.column2_files (AnalysisPage.Loading p))).
Proof.
  split.
  - intros d Hd. unfold AnalysisPage.select_datasetType.
    rewrite bool_decide_eq_false_2 by done.
    apply datasetType_changed_clears.
  - intros a Ha. unfold AnalysisPage.select_annotationType.
    rewrite bool_decide_eq_false_2 by done.
    apply (annotationType_changed_files
             (AnalysisPage.set_Loading
                (LoadingWidget.set_annotationType a (AnalysisPage.Loading p)) p)).
Qed.

Lemma mode_change_registry_witness :
  LoadingWidget.column1_files
    (AnalysisPage.Loading (AnalysisPage.select_datasetType Graph volume_batch))
    = []
  ∧ LoadingWidget.column1_files
      (AnalysisPage.Loading
         (AnalysisPage.select_annotationType Ann_RGB
            (annotated_batch (Some cortex_catalog))))
    = ["/data/brain.nii"].
Proof.
  split.
  - apply (proj1 (mode_change_registry volume_batch) Graph). simpl. congruence.
  - apply (proj2 (mode_change_registry (annotated_batch (Some cortex_catalog)))
                 Ann_RGB).
    simpl. congruence.
Defined.

(** C4 as stated fails: with one plain volume loaded, changing the
    annotation type from None to ID leaves that volume in column 1. *)
Lemma annotation_change_keeps_column1 :
  Ann_ID ≠ LoadingWidget.annotationType (AnalysisPage.Loading volume_batch)
  ∧ ¬ (LoadingWidget.column1_files
         (AnalysisPage.Loading
            (AnalysisPage.select_annotationType Ann_ID volume_batch)) = []
       ∧ LoadingWidget.column2_files
           (AnalysisPage.Loading
              (AnalysisPage.select_annotationType Ann_ID volume_batch)) = []).
Proof.
  split; [done |]. intros [H _]. vm_compute in H. discriminate H.
Qed.

(** C6: whatever the page held before, once the slots of a dataset-type
    change have run under mode [(d, a, g)] the sheet has the column count of
    the specification's table, the annotation type playing no role under
    Graph and the graph format none under Volume; running the slots again
    changes nothing; and the slots of an annotation-type change, which can
    only fire under Volume, give the table's Volume rows. *)
Theorem mode_resolution_matches_table
    (p : AnalysisPage.t) (d : DatasetType) (a : AnnotationType) (g : string) :
  let p' := AnalysisPage.datasetType_changed (with_mode d a g p) in
  FileSheet.columnCount (LoadingWidget.fileSheet (AnalysisPage.Loading p'))
    = column_count (spec_resolve d a g)
  ∧ AnalysisPage.datasetType_changed p' = p'
  ∧ (∀ a', sheet_format (AnalysisPage.datasetType_changed (with_mode Graph a' g p))
           = sheet_format (AnalysisPage.datasetType_changed (with_mode Graph a g p)))
  ∧ (∀ g', sheet_format (AnalysisPage.datasetType_changed (with_mode Volume a g' p))
           = sheet_format (AnalysisPage.datasetType_changed (with_mode Volume a g p)))
  ∧ FileSheet.columnCount
      (LoadingWidget.fileSheet
         (AnalysisPage.Loading
            (AnalysisPage.annotationType_changed (with_mode Volume a g p))))
    = column_count (spec_resolve Volume a g)
  ∧ (column_count (spec_resolve Volume Ann_None g) = 2
     ∧ column_count (spec_resolve Volume Ann_ID g) = 4
     ∧ column_count (spec_resolve Volume Ann_RGB g) = 4
     ∧ column_count (spec_resolve Graph a "CSV") = 3
     ∧ (g ≠ "CSV" → column_count (spec_resolve Graph a g) = 2)).
Proof.
  destruct p as [an [rf c1 c2 ad d0 a0 dis vis txt sty def sh] gf tab th].
  cbv zeta. unfold sheet_format. rewrite !with_mode_closed.
  rewrite !datasetType_changed_closed.
  split; [| split; [| split; [| split; [| split]]]].
  - reflexivity.
  - destruct a; reflexivity.
  - intros a'. rewrite !with_mode_closed, !datasetType_changed_closed.
    destruct a, a'; reflexivity.
  - intros g'. rewrite !with_mode_closed, !datasetType_changed_closed.
    destruct a; reflexivity.
  - unfold AnalysisPage.annotationType_changed, AnalysisPage.set_Loading.
    cbn [AnalysisPage.Loading].
    rewrite update_JSON_fileSheet, annotation_options_columnCount.
    destruct a; reflexivity.
  - repeat split.
    intros Hg. apply String.eqb_neq in Hg. simpl. by rewrite Hg.
Qed.

Lemma mode_resolution_matches_table_witness :
  FileSheet.columnCount
    (LoadingWidget.fileSheet
       (AnalysisPage.Loading
          (AnalysisPage.datasetType_changed
             (with_mode Graph Ann_None "GraphML" volume_batch)))) = 2.
Proof.
  destruct (mode_resolution_matches_table volume_batch Graph Ann_None "GraphML")
    as (Hcount & _ & _ & _ & _ & _ & _ & _ & _ & Hother).
  rewrite Hcount. apply Hother. done.
Defined.

(** ** The queue markers *)

Section UpdateQueue.

Import LoadingWidget.

Lemma fill_column_hit col text sheet row :
  0 ≤ row < FileSheet.rowCount sheet →
  0 ≤ col < FileSheet.columnCount sheet →
  FileSheet.item row col (fill_column col text sheet) = Some text.
Proof.
  intros Hrow Hcol. apply set_rows_hit; [| done | done].
  apply elem_of_seqZ. lia.
Qed.

Lemma fill_column_other_column col col' text sheet row :
  col ≠ col' →
  FileSheet.item row col (fill_column col' text sheet)
  = FileSheet.item row col sheet.
Proof. apply set_rows_other_column. Qed.

(** The status cell of every row after [update_queue]. *)
Lemma update_queue_status s row :
  0 < FileSheet.columnCount (fileSheet s) →
  0 ≤ row < FileSheet.rowCount (fileSheet s) →
  FileSheet.item row (FileSheet.columnCount (fileSheet s) - 1)
    (fileSheet (update_queue s)) = Some "Queued...".
Proof.
  intros Hcols Hrow. unfold update_queue.
  case_bool_decide; simpl.
  - rewrite fill_column_other_column by lia.
    apply fill_column_hit; [done | lia].
  - apply fill_column_hit; [done | lia].
Qed.

(** The progress cell of every row of a four-column sheet. *)
Lemma update_queue_progress s row :
  FileSheet.columnCount (fileSheet s) = 4 →
  0 ≤ row < FileSheet.rowCount (fileSheet s) →
  FileSheet.item row 2 (fileSheet (update_queue s))
  = Some (if catalog_truthy (annotation_data s)
          then "0/" +:+ pretty (size (default ∅ (annotation_data s)))
          else "Load JSON!").
Proof.
  intros Hcols Hrow. unfold update_queue.
  rewrite bool_decide_eq_true_2
    by (by rewrite (proj2 (fill_column_counts _ _ _))).
  simpl. rewrite Hcols.
  apply fill_column_hit;
    rewrite ?(proj1 (fill_column_counts _ _ _)),
            ?(proj2 (fill_column_counts _ _ _)); lia.
Qed.

End UpdateQueue.

(** C9, as the code has it: [update_queue] writes the queued marker into the
    status cell of every row and, on a four-column sheet, writes into the
    progress cell of every row ["0/<N>"] with N the number of regions of the
    loaded catalog when that catalog is not empty, and the load prompt when
    no catalog is loaded or the loaded one is empty. *)
Theorem update_queue_marks_every_row (s : LoadingWidget.t) (row : Z) :
  let sheet := LoadingWidget.fileSheet s in
  let sheet' := LoadingWidget.fileSheet (LoadingWidget.update_queue s) in
  0 < FileSheet.columnCount sheet →
  0 ≤ row < FileSheet.rowCount sheet →
  FileSheet.item row (FileSheet.columnCount sheet - 1) sheet' = Some "Queued..."
  ∧ (FileSheet.columnCount sheet = 4 →
     FileSheet.item row 2 sheet'
     = Some (match LoadingWidget.annotation_data s with
             | Some m => if decide (size m = 0%nat) then "Load JSON!"
                         else "0/" +:+ pretty (size m)
             | None => "Load JSON!"
             end)).
Proof.
  intros sheet sheet' Hcols Hrow. split.
  - by apply update_queue_status.
  - intros H4. unfold sheet'. rewrite update_queue_progress by done.
    destruct (LoadingWidget.annotation_data s) as [m |]; simpl; [| done].
    destruct (decide (size m = 0%nat)) as [-> | Hne]; [done |].
    by destruct (size m).
Qed.

Lemma update_queue_marks_every_row_witness :
  FileSheet.item 0 3
    (LoadingWidget.fileSheet
       (LoadingWidget.update_queue
          (AnalysisPage.Loading (annotated_batch (Some cortex_catalog)))))
    = Some "Queued..."
  ∧ FileSheet.item 0 2
      (LoadingWidget.fileSheet
         (LoadingWidget.update_queue
            (AnalysisPage.Loading (annotated_batch (Some cortex_catalog)))))
    = Some "0/1".
Proof.
  destruct (update_queue_marks_every_row
              (AnalysisPage.Loading (annotated_batch (Some cortex_catalog))) 0)
    as [Hstatus Hprogress].
  - reflexivity.
  - split; [by vm_compute | reflexivity].
  - split; [exact Hstatus | exact (Hprogress eq_refl)].
Defined.

(** C9 as stated fails for a loaded catalog without regions: the progress
    cell reads the load prompt, not ["0/0"]. *)
Lemma update_queue_empty_catalog_prompt :
  (LoadingWidget.load_annotation_file "/data/empty.json"
     {[ catalog_marker := ∅ ]} QMessageBox_Yes id_widget).1
    = empty_catalog_widget
  ∧ FileSheet.columnCount (LoadingWidget.fileSheet empty_catalog_widget) = 4
  ∧ LoadingWidget.annotation_data empty_catalog_widget = Some ∅
  ∧ FileSheet.item 0 2
      (LoadingWidget.fileSheet (LoadingWidget.update_queue empty_catalog_widget))
    = Some "Load JSON!"
  ∧ FileSheet.item 0 2
      (LoadingWidget.fileSheet (LoadingWidget.update_queue empty_catalog_widget))
    ≠ Some ("0/" +:+ pretty (size (∅ : gmap string region))).
Proof. repeat split; by vm_compute. Qed.

(** ** Loading the annotation catalog *)

Section LoadAnnotationFile.

Import LoadingWidget.

Lemma shares_color_true r1 r2 c :
  c ∈ colors r1 → c ∈ colors r2 → shares_color r1 r2 = true.
Proof.
  intros H1 H2. unfold shares_color. apply existsb_exists.
  exists c. split; [by apply list_elem_of_In |].
  by apply bool_decide_eq_true_2.
Qed.

Lemma duplicate_colors_ordered rs i j r1 r2 :
  (i < j)%nat → rs !! i = Some r1 → rs !! j = Some r2 →
  shares_color r1 r2 = true → duplicate_colors rs = true.
Proof.
  revert i j. induction rs as [| r rs IH]; intros i j Hij Hi Hj Hshare.
  - done.
  - simpl. apply orb_true_iff.
    destruct i as [| i]; simpl in Hi.
    + injection Hi as ->. left.
      destruct j as [| j]; [lia |]. simpl in Hj.
      apply existsb_exists. exists r2. split; [| done].
      apply list_elem_of_In, list_elem_of_lookup. by exists j.
    + right. destruct j as [| j]; [lia |]. simpl in Hj.
      apply (IH i j); [lia | done | done | done].
Qed.

(** Two region entries that share a colour triple make [RGB_check] answer
    [true]. *)
Lemma RGB_check_shared (m : gmap string region) k1 k2 r1 r2 c :
  k1 ≠ k2 → m !! k1 = Some r1 → m !! k2 = Some r2 →
  c ∈ colors r1 → c ∈ colors r2 → RGB_check m = true.
Proof.
  intros Hne H1 H2 Hc1 Hc2. unfold RGB_check.
  apply elem_of_map_to_list, list_elem_of_lookup in H1 as [i Hi].
  apply elem_of_map_to_list, list_elem_of_lookup in H2 as [j Hj].
  assert (i ≠ j) as Hij by (intros ->; congruence).
  assert ((map_to_list m).*2 !! i = Some r1) as Hi'
    by (by rewrite list_lookup_fmap, Hi).
  assert ((map_to_list m).*2 !! j = Some r2) as Hj'
    by (by rewrite list_lookup_fmap, Hj).
  destruct (decide (i < j)%nat).
  - eapply (duplicate_colors_ordered _ i j); eauto using shares_color_true.
  - eapply (duplicate_colors_ordered _ j i);
      eauto using shares_color_true with lia.
Qed.

(** The structural test of the loader, as a proposition. *)
Lemma structural_test_false parsed :
  valid_document parsed →
  negb (Nat.eqb (size parsed) 1)
  || negb (bool_decide (catalog_marker ∈ dom parsed)) = false.
Proof.
  intros [Hsize Hkey]. rewrite Hsize. simpl.
  by rewrite bool_decide_eq_true_2.
Qed.

Lemma structural_test_true parsed :
  ¬ valid_document parsed →
  negb (Nat.eqb (size parsed) 1)
  || negb (bool_decide (catalog_marker ∈ dom parsed)) = true.
Proof.
  intros Hinvalid. apply orb_true_iff.
  destruct (Nat.eqb_spec (size parsed) 1) as [Hsize | Hsize]; [| by left].
  right. apply negb_true_iff, bool_decide_eq_false_2.
  intros Hkey. by apply Hinvalid.
Qed.

Lemma nonempty_path (loaded_file : string) :
  loaded_file ≠ "" → negb (String.eqb loaded_file "") = true.
Proof. intros H. by apply negb_true_iff, String.eqb_neq. Qed.

Lemma update_queue_annotation_data s :
  annotation_data (update_queue s) = annotation_data s
  ∧ loadedJSON_text (update_queue s) = loadedJSON_text s
  ∧ loadedJSON_styleSheet (update_queue s) = loadedJSON_styleSheet s.
Proof. by rewrite update_queue_sheet_only. Qed.

End LoadAnnotationFile.

Lemma annotation_document_valid (catalog : gmap string region) :
  valid_document (annotation_document catalog).
Proof.
  split.
  - apply map_size_singleton.
  - apply elem_of_dom. exists catalog. apply lookup_singleton_eq.
Qed.

Lemma annotation_document_catalog (catalog : gmap string region) :
  annotation_document catalog !!! catalog_marker = catalog.
Proof. apply lookup_total_singleton_eq. Qed.

(** *** The loader on every parsed document *)

Section LoadAnnotationJson.

Import LoadingWidget.

Lemma members_test_false (members : gmap string json_member) :
  valid_members members →
  Nat.eqb (size members) 1 = true
  ∧ bool_decide (catalog_marker ∈ dom members) = true.
Proof.
  intros [Hsize Hkey]. rewrite Hsize. split; [done |].
  by apply bool_decide_eq_true_2.
Qed.

Lemma members_test_true (members : gmap string json_member) :
  ¬ valid_members members →
  Nat.eqb (size members) 1 = false
  ∨ (Nat.eqb (size members) 1 = true
     ∧ bool_decide (catalog_marker ∈ dom members) = false).
Proof.
  intros Hinvalid.
  destruct (Nat.eqb_spec (size members) 1) as [Hsize | Hsize]; [| by left].
  right. split; [done |]. apply bool_decide_eq_false_2.
  intros Hkey. by apply Hinvalid.
Qed.

(** A mapping whose keys are wrong is rejected, whatever its values. *)
Lemma load_annotation_json_rejects
    loaded_file (members : gmap string json_member) check_other answer s :
  loaded_file ≠ "" → ¬ valid_members members →
  load_annotation_json loaded_file (Return (JSON_object members))
    check_other answer s
  = Return (Widget (JSON_error "Incorrect filetype!" s), []).
Proof.
  intros Hfile Hinvalid. unfold load_annotation_json.
  rewrite nonempty_path by done. simpl.
  by destruct (members_test_true members Hinvalid) as [-> | [-> ->]].
Qed.

Lemma load_annotation_json_mapping
    loaded_file (members : gmap string json_member) regions
    check_other answer s :
  loaded_file ≠ "" → valid_members members →
  members !! catalog_marker = Some (Member_mapping regions) →
  load_annotation_json loaded_file (Return (JSON_object members))
    check_other answer s
  = if String.eqb (annotationType_currentText (annotationType s)) "RGB"
       && RGB_check regions
    then if bool_decide (answer = QMessageBox_No)
         then Return (Widget s, [RGB_Warning])
         else Return (Widget (committed loaded_file regions s), [RGB_Warning])
    else Return (Widget (committed loaded_file regions s), []).
Proof.
  intros Hfile Hvalid Hmember. unfold load_annotation_json.
  rewrite nonempty_path by done. simpl.
  destruct (members_test_false members Hvalid) as [-> ->]. simpl.
  rewrite Hmember. simpl.
  destruct (String.eqb _ "RGB"); simpl; [| done].
  destruct (RGB_check regions); simpl; [| done].
  by case_bool_decide.
Qed.

Lemma committed_fields loaded_file regions s :
  annotation_data (committed loaded_file regions s) = Some regions
  ∧ loadedJSON_text (committed loaded_file regions s) = basename loaded_file
  ∧ loadedJSON_styleSheet (committed loaded_file regions s) = JSONdefault s.
Proof.
  unfold committed.
  by destruct (update_queue_annotation_data
                 (set_annotation_data (Some regions)
                    (set_loadedJSON_text (basename loaded_file)
                       (set_loadedJSON_styleSheet (JSONdefault s) s))))
    as (-> & -> & ->).
Qed.

(** On the documents that map keys to mappings the slot is
    [load_annotation_file]. *)
Lemma load_annotation_json_mappings
    loaded_file (parsed : gmap string (gmap string region))
    check_other answer s :
  load_annotation_json loaded_file
    (Return (JSON_object (Member_mapping <$> parsed))) check_other answer s
  = Return (Widget (load_annotation_file loaded_file parsed answer s).1,
            (load_annotation_file loaded_file parsed answer s).2).
Proof.
  unfold load_annotation_json, load_annotation_file.
  destruct (negb (String.eqb loaded_file "")); [| done]. simpl.
  rewrite map_size_fmap, dom_fmap_L.
  destruct (negb (Nat.eqb (size parsed) 1)) eqn:Hsize; simpl; [done |].
  case_bool_decide as Hkey; simpl; [| done].
  apply elem_of_dom in Hkey as [regions Hregions].
  rewrite lookup_fmap, Hregions. simpl.
  rewrite (lookup_total_correct _ _ _ Hregions).
  destruct (String.eqb _ "RGB"); simpl; [| done].
  destruct (RGB_check regions); simpl; [| done].
  by case_bool_decide.
Qed.

End LoadAnnotationJson.

(** C7, as the code has it, for a parsed document that is a mapping: when
    it does not have exactly one top-level key equal to
    ["VesselVio Annotations"], whatever its values, it is rejected with the
    incorrect-filetype error and the loaded catalog stays as it was; when
    it has, and the value under the marker is a mapping, the load succeeds
    (the catalog replaces the old one and the file name is shown) unless, in
    RGB mode, the duplicate-colour warning is answered with No, in which
    case the widget is left exactly as it was. *)
Theorem load_annotation_json_structure
    (loaded_file : string) (members : gmap string json_member)
    (check_other : outcome bool) (answer : Z) (s : LoadingWidget.t) :
  loaded_file ≠ "" →
  let r := LoadingWidget.load_annotation_json loaded_file
             (Return (JSON_object members)) check_other answer s in
  (¬ valid_members members →
     r = Return (LoadingWidget.Widget
                   (LoadingWidget.JSON_error "Incorrect filetype!" s), [])
     ∧ LoadingWidget.annotation_data
         (LoadingWidget.JSON_error "Incorrect filetype!" s)
       = LoadingWidget.annotation_data s)
  ∧ (∀ regions,
       valid_members members →
       members !! catalog_marker = Some (Member_mapping regions) →
       (¬ (LoadingWidget.annotationType s = Ann_RGB
           ∧ RGB_check regions = true ∧ answer = QMessageBox_No) →
        ∃ s' shown,
          r = Return (LoadingWidget.Widget s', shown)
          ∧ LoadingWidget.annotation_data s' = Some regions
          ∧ LoadingWidget.loadedJSON_text s' = basename loaded_file
          ∧ LoadingWidget.loadedJSON_styleSheet s' = LoadingWidget.JSONdefault s)
       ∧ (LoadingWidget.annotationType s = Ann_RGB →
          RGB_check regions = true → answer = QMessageBox_No →
          r = Return (LoadingWidget.Widget s, [RGB_Warning]))).
Proof.
  intros Hfile r. split.
  - intros Hinvalid. split; [by apply load_annotation_json_rejects | done].
  - intros regions Hvalid Hmember. unfold r.
    rewrite (load_annotation_json_mapping _ _ regions) by done.
    split.
    + intros Hnot.
      destruct (String.eqb _ "RGB" && RGB_check regions) eqn:Hrgb.
      * apply andb_true_iff in Hrgb as [Htype Hdup].
        case_bool_decide as Hanswer.
        -- exfalso. apply Hnot. repeat split; try done.
           by destruct (LoadingWidget.annotationType s).
        -- eexists _, _. split; [done |]. apply committed_fields.
      * eexists _, _. split; [done |]. apply committed_fields.
    + intros Htype Hdup Hanswer. rewrite Htype, Hdup. simpl.
      by rewrite (bool_decide_eq_true_2 _ Hanswer).
Qed.

Lemma load_annotation_json_structure_witness :
  LoadingWidget.load_annotation_json "/data/atlas.json"
    (Return (JSON_object {[ "foo" := Member_other true ]}))
    (Return false) QMessageBox_Yes rgb_widget
    = Return (LoadingWidget.Widget
                (LoadingWidget.JSON_error "Incorrect filetype!" rgb_widget), [])
  ∧ ∃ s' shown,
      LoadingWidget.load_annotation_json "/data/atlas.json"
        (catalog_document cortex_catalog) (Return false) QMessageBox_Yes
        rgb_widget
      = Return (LoadingWidget.Widget s', shown)
      ∧ LoadingWidget.annotation_data s' = Some cortex_catalog.
Proof.
  assert (Hfile : "/data/atlas.json" ≠ "") by discriminate.
  split.
  - pose proof (load_annotation_json_structure "/data/atlas.json"
                  {[ "foo" := Member_other true ]} (Return false)
                  QMessageBox_Yes rgb_widget Hfile) as H.
    cbv zeta in H. destruct H as [Hrejected _].
    destruct Hrejected as [Hr _]; [| exact Hr].
    intros [_ Hkey]. apply elem_of_dom in Hkey as [x Hx].
    rewrite lookup_singleton_ne in Hx; discriminate.
  - pose proof (load_annotation_json_structure "/data/atlas.json"
                  {[ catalog_marker := Member_mapping cortex_catalog ]}
                  (Return false) QMessageBox_Yes rgb_widget Hfile) as H.
    cbv zeta in H. destruct H as [_ Hloaded].
    destruct (Hloaded cortex_catalog) as [Hreturns _].
    + split; [apply map_size_singleton |].
      apply elem_of_dom. eexists. apply lookup_singleton_eq.
    + apply lookup_singleton_eq.
    + destruct Hreturns as (s' & shown & Hr & Hdata & _).
      * intros (_ & _ & Hanswer). discriminate Hanswer.
      * exists s', shown. split; [exact Hr | exact Hdata].
Defined.

(** C7 as stated fails twice.  A parsed document that is a one-element
    list, or a number, is not one key equal to the marker, yet it is not
    rejected as malformed: the test itself raises.  And a document that is
    exactly one key equal to the marker is not loaded when, in RGB mode, the
    duplicate-colour warning is declined. *)
Lemma load_annotation_json_raises_or_declines :
  LoadingWidget.load_annotation_json "/data/list.json"
    (Return (JSON_array 1)) (Return false) QMessageBox_Yes id_widget
    = Raise (AttributeError "keys")
  ∧ LoadingWidget.load_annotation_json "/data/seven.json"
      (Return JSON_number) (Return false) QMessageBox_Yes id_widget
    = Raise (TypeError "len")
  ∧ (valid_members {[ catalog_marker := Member_mapping clashing_catalog ]}
     ∧ LoadingWidget.load_annotation_json "/data/atlas.json"
         (catalog_document clashing_catalog) (Return false) QMessageBox_No
         rgb_widget
       = Return (LoadingWidget.Widget rgb_widget, [RGB_Warning])
     ∧ LoadingWidget.annotation_data rgb_widget ≠ Some clashing_catalog).
Proof.
  split; [done | split; [done |]]. split; [| split].
  - split; [apply map_size_singleton |].
    apply elem_of_dom. eexists. apply lookup_singleton_eq.
  - by vm_compute.
  - done.
Qed.

(** C8: in RGB mode, a structurally valid document whose catalog has two
    region entries with a common colour triple makes the loader show the
    duplicate-colour warning and return normally; answered with No, the
    widget is left exactly as it was; answered otherwise, the new catalog
    replaces the previous one. *)
Theorem load_annotation_file_duplicate_colors
    (loaded_file : string) (parsed : gmap string (gmap string region))
    (s : LoadingWidget.t) (k1 k2 : string) (r1 r2 : region) (c : Z * Z * Z) :
  loaded_file ≠ "" →
  LoadingWidget.annotationType s = Ann_RGB →
  valid_document parsed →
  k1 ≠ k2 →
  (parsed !!! catalog_marker) !! k1 = Some r1 →
  (parsed !!! catalog_marker) !! k2 = Some r2 →
  c ∈ colors r1 → c ∈ colors r2 →
  LoadingWidget.load_annotation_file loaded_file parsed QMessageBox_No s
    = (s, [RGB_Warning])
  ∧ (∀ answer, answer ≠ QMessageBox_No →
       let r := LoadingWidget.load_annotation_file loaded_file parsed answer s in
       r.2 = [RGB_Warning]
       ∧ LoadingWidget.annotation_data r.1 = Some (parsed !!! catalog_marker)
       ∧ LoadingWidget.loadedJSON_text r.1 = basename loaded_file).
Proof.
  intros Hfile Hrgb Hvalid Hne H1 H2 Hc1 Hc2.
  pose proof (RGB_check_shared _ _ _ _ _ _ Hne H1 H2 Hc1 Hc2) as Hdup.
  unfold LoadingWidget.load_annotation_file.
  rewrite nonempty_path, structural_test_false, Hrgb, Hdup by done. simpl.
  split; [done |].
  intros answer Hanswer. rewrite bool_decide_eq_false_2 by done. simpl.
  split; [done |].
  by destruct (update_queue_annotation_data
                 (LoadingWidget.set_annotation_data
                    (Some (parsed !!! catalog_marker))
                    (LoadingWidget.set_loadedJSON_text (basename loaded_file)
                       (LoadingWidget.set_loadedJSON_styleSheet
                          (LoadingWidget.JSONdefault s) s))))
    as (-> & -> & _).
Qed.

Lemma load_annotation_file_duplicate_colors_witness :
  LoadingWidget.load_annotation_file "/data/atlas.json"
    (annotation_document clashing_catalog) QMessageBox_No rgb_widget
    = (rgb_widget, [RGB_Warning])
  ∧ LoadingWidget.annotation_data
      (LoadingWidget.load_annotation_file "/data/atlas.json"
         (annotation_document clashing_catalog) QMessageBox_Yes rgb_widget).1
    = Some clashing_catalog.
Proof.
  destruct (load_annotation_file_duplicate_colors "/data/atlas.json"
              (annotation_document clashing_catalog) rgb_widget
              "cortex" "thalamus"
              (Region [(255, 0, 0)]) (Region [(0, 255, 0); (255, 0, 0)])
              (255, 0, 0))
    as [Hno Hyes].
  - done.
  - reflexivity.
  - apply annotation_document_valid.
  - done.
  - rewrite annotation_document_catalog. reflexivity.
  - rewrite annotation_document_catalog. reflexivity.
  - simpl. apply list_elem_of_here.
  - simpl. apply list_elem_of_further, list_elem_of_here.
  - split; [exact Hno |].
    destruct (Hyes QMessageBox_Yes ltac:(done)) as (_ & Hdata & _).
    rewrite Hdata. by rewrite annotation_document_catalog.
Defined.

(** ** After an analysis *)

(** What the setters and the file-adding slots leave of the registry. *)
Section Registry.

Import AnalysisPage.

Lemma analyzed_set_Loading l p : analyzed (set_Loading l p) = analyzed p.
Proof. done. Qed.

Lemma Loading_set_Loading l p : Loading (set_Loading l p) = l.
Proof. done. Qed.

Lemma analyzed_set_analyzed b p : analyzed (set_analyzed b p) = b.
Proof. done. Qed.

Lemma Loading_set_analyzed b p : Loading (set_analyzed b p) = Loading p.
Proof. done. Qed.

Lemma column1_set_column1 v s :
  LoadingWidget.column1_files (LoadingWidget.set_column1_files v s) = v.
Proof. done. Qed.

Lemma column2_set_column1 v s :
  LoadingWidget.column2_files (LoadingWidget.set_column1_files v s)
  = LoadingWidget.column2_files s.
Proof. done. Qed.

Lemma column1_set_column2 v s :
  LoadingWidget.column1_files (LoadingWidget.set_column2_files v s)
  = LoadingWidget.column1_files s.
Proof. done. Qed.

Lemma column2_set_column2 v s :
  LoadingWidget.column2_files (LoadingWidget.set_column2_files v s) = v.
Proof. done. Qed.

Lemma column1_add_column1_files s :
  LoadingWidget.column1_files (LoadingWidget.add_column1_files s)
  = LoadingWidget.column1_files s.
Proof. by rewrite add_column1_files_sheet_only. Qed.

Lemma column2_add_column1_files s :
  LoadingWidget.column2_files (LoadingWidget.add_column1_files s)
  = LoadingWidget.column2_files s.
Proof. by rewrite add_column1_files_sheet_only. Qed.

Lemma column1_add_column2_files s :
  LoadingWidget.column1_files (LoadingWidget.add_column2_files s)
  = LoadingWidget.column1_files s.
Proof. by rewrite add_column2_files_sheet_only. Qed.

Lemma column2_add_column2_files s :
  LoadingWidget.column2_files (LoadingWidget.add_column2_files s)
  = LoadingWidget.column2_files s.
Proof. by rewrite add_column2_files_sheet_only. Qed.

Lemma column1_clear_files s :
  LoadingWidget.column1_files (LoadingWidget.clear_files s) = [].
Proof. done. Qed.

Lemma column2_clear_files s :
  LoadingWidget.column2_files (LoadingWidget.clear_files s) = [].
Proof. done. Qed.

Lemma rows_clear_files s :
  FileSheet.rows (LoadingWidget.fileSheet (LoadingWidget.clear_files s)) = [].
Proof. done. Qed.

End Registry.

Create Rewrite HintDb registry.

#[global] Hint Rewrite
  analyzed_set_Loading Loading_set_Loading analyzed_set_analyzed
  Loading_set_analyzed column1_set_column1 column2_set_column1
  column1_set_column2 column2_set_column2 column1_add_column1_files
  column2_add_column1_files column1_add_column2_files
  column2_add_column2_files column1_clear_files column2_clear_files
  rows_clear_files app_nil_l : registry.

Section AfterAnalysis.

Import AnalysisPage.

Lemma run_requests_analyzed n p :
  analyzed p = true →
  run_requests n p = Return (p, replicate n analysis_warning).
Proof.
  intros Han. induction n as [| n IH]; simpl; [done |].
  rewrite run_analysis_analyzed by done. simpl. by rewrite IH.
Qed.

(** A run request that shows no warning has started a thread and marks the
    page as analyzed. *)
Lemma run_analysis_started p p' :
  run_analysis p = Return (p', []) →
  analyzed p' = true ∧ ∃ th, a_thread p' = Some th ∧ started th = true.
Proof.
  unfold run_analysis.
  destruct (analyzed p); [done |].
  destruct (negb (file_check p)); [done |].
  match goal with
  | |- context [a_thread ?q] => destruct (a_thread q) as [th |]; [| done]
  end.
  simpl. intros [= <-]. split; [done |]. by eexists.
Qed.

(** In the modes that ask [helpers] for one list of files, [load_files]
    returns. *)
Lemma select_files_single_column ui p :
  requires_column2
    (spec_resolve (LoadingWidget.datasetType (Loading p))
                  (LoadingWidget.annotationType (Loading p))
                  (graphFormat p)) = false →
  select_files ui p
  = Return (Some (match LoadingWidget.datasetType (Loading p) with
                  | Volume => load_volumes ui
                  | Graph => load_graphs ui
                  end), None).
Proof.
  unfold select_files, dataset_text, annotation_text.
  destruct (LoadingWidget.datasetType (Loading p)),
           (LoadingWidget.annotationType (Loading p)); simpl; try done;
    destruct (String.eqb (graphFormat p) "CSV"); done.
Qed.

End AfterAnalysis.

(** C10: a load request after an analysis is claimed to clear the registry
    and then append the newly selected files.  Load two volumes on a fresh
    page, analyze them, and pick ID in the annotation combo box: the page
    is still marked analyzed and still lists the two analyzed volumes, and
    it now asks for paired files through the [FileLoader] dialog, whose
    constructor raises.  The load request therefore raises, however the
    dialogs are driven, before the registry is cleared, and every run
    request goes on showing the load-files warning.  Without the change of
    the annotation type the same load request does clear the registry and
    leaves exactly the newly picked file. *)
Theorem load_files_after_analysis_raises_in_paired_mode
    (ui : AnalysisPage.picker) :
  (p ← analyzed_then_ID;
   mret (AnalysisPage.analyzed p,
         LoadingWidget.annotationType (AnalysisPage.Loading p),
         LoadingWidget.column1_files (AnalysisPage.Loading p),
         LoadingWidget.column2_files (AnalysisPage.Loading p),
         FileSheet.rowCount
           (LoadingWidget.fileSheet (AnalysisPage.Loading p))))
  = Return (true, Ann_ID, ["/data/a.nii"; "/data/b.nii"], [], 2)
  ∧ (p ← analyzed_then_ID; AnalysisPage.load_files ui p)
    = Raise (AttributeError "cancel_load")
  ∧ (p ← analyzed_then_ID; AnalysisPage.run_analysis p)
    = (p ← analyzed_then_ID; mret (p, [AnalysisPage.analysis_warning]))
  ∧ (p ← analyzed_volumes;
     p ← AnalysisPage.load_files later_picks p;
     mret (AnalysisPage.analyzed p,
           LoadingWidget.column1_files (AnalysisPage.Loading p),
           LoadingWidget.column2_files (AnalysisPage.Loading p),
           FileSheet.rowCount
             (LoadingWidget.fileSheet (AnalysisPage.Loading p))))
    = Return (false, ["/data/c.nii"], [], 1).
Proof. repeat split; by vm_compute. Qed.

(** * Further properties of the page *)

(** ** File names *)

Section Basename.

Lemma append_String (a : ascii) (s r : string) :
  String a s +:+ r = String a (s +:+ r).
Proof. reflexivity. Qed.

Lemma append_empty_l (r : string) : EmptyString +:+ r = r.
Proof. reflexivity. Qed.

Lemma append_empty_r (s : string) : s +:+ EmptyString = s.
Proof.
  induction s as [| a s IH]; [done |]. by rewrite append_String, IH.
Qed.

Lemma string_app_snoc (acc : string) (c : ascii) (r : string) :
  (acc +:+ String c EmptyString) +:+ r = acc +:+ String c r.
Proof.
  induction acc as [| a acc IH].
  - by rewrite !append_empty_l, append_String, append_empty_l.
  - by rewrite !append_String, IH.
Qed.

Lemma contains_slash_snoc (acc : string) (c : ascii) :
  contains_slash acc = false → Ascii.eqb c "/" = false →
  contains_slash (acc +:+ String c EmptyString) = false.
Proof.
  intros Hacc Hc. induction acc as [| a acc IH].
  - rewrite append_empty_l. simpl. by rewrite Hc.
  - rewrite append_String. simpl in *.
    apply orb_false_iff in Hacc as [Ha Hacc]. rewrite Ha. by apply IH.
Qed.

Lemma basename_from_no_slash acc p :
  contains_slash p = false → basename_from acc p = acc +:+ p.
Proof.
  revert acc. induction p as [| c r IH]; intros acc Hp; simpl in *.
  - by rewrite append_empty_r.
  - apply orb_false_iff in Hp as [Hc Hr]. rewrite Hc, IH by done.
    apply string_app_snoc.
Qed.

Lemma basename_from_slash_free acc p :
  contains_slash acc = false → contains_slash (basename_from acc p) = false.
Proof.
  revert acc. induction p as [| c r IH]; intros acc Hacc; simpl; [done |].
  destruct (Ascii.eqb c "/") eqn:Hc; [by apply IH |].
  by apply IH, contains_slash_snoc.
Qed.

Lemma basename_from_after_slash acc dir name :
  basename_from acc (dir +:+ String "/" name) = basename name.
Proof.
  revert acc. induction dir as [| c r IH]; intros acc.
  - by rewrite append_empty_l.
  - rewrite append_String. simpl. destruct (Ascii.eqb c "/"); apply IH.
Qed.

End Basename.

(** X1: the name shown for a file never contains a slash; a path without
    a slash is shown as it is; and of [dir/name] with a slash-free [name]
    exactly [name] is shown, whatever [dir] is. *)
Theorem basename_is_last_component (dir name p : string) :
  contains_slash (basename p) = false
  ∧ (contains_slash p = false → basename p = p)
  ∧ (contains_slash name = false →
     basename (dir +:+ String "/" name) = name).
Proof.
  split; [| split].
  - by apply basename_from_slash_free.
  - intros Hp. unfold basename.
    by rewrite basename_from_no_slash, append_empty_l.
  - intros Hname. unfold basename.
    rewrite basename_from_after_slash. unfold basename.
    by rewrite basename_from_no_slash, append_empty_l.
Qed.

Lemma basename_is_last_component_witness :
  basename "brain.nii" = "brain.nii"
  ∧ basename ("/data/run 1" +:+ String "/" "brain.nii") = "brain.nii".
Proof.
  destruct (basename_is_last_component "/data/run 1" "brain.nii" "brain.nii")
    as (_ & Hplain & Hpath).
  split; [apply Hplain | apply Hpath]; reflexivity.
Defined.

(** ** Filling the sheet *)

Section AddFiles.

Import FileSheet.

Lemma insertRow_end s :
  insertRow (rowCount s) s = mk (columnCount s) (header s) (rows s ++ [∅]).
Proof.
  unfold insertRow, rowCount.
  rewrite bool_decide_eq_true_2 by lia.
  by rewrite Nat2Z.id, firstn_all, drop_all.
Qed.

Lemma rowCount_insertRow_end s :
  rowCount (insertRow (rowCount s) s) = rowCount s + 1.
Proof.
  rewrite insertRow_end. unfold rowCount. simpl.
  rewrite length_app. simpl. lia.
Qed.

Lemma item_insertRow_end row col s :
  item row col (insertRow (rowCount s) s) = item row col s.
Proof.
  rewrite insertRow_end. unfold item. simpl.
  case_bool_decide as Hrow; [| done].
  destruct (decide (Z.to_nat row < length (rows s))%nat) as [Hlt | Hge].
  - by rewrite lookup_app_l.
  - rewrite (lookup_ge_None_2 (rows s)) by lia. simpl.
    destruct (decide (Z.to_nat row = length (rows s))) as [-> | Hne].
    + by rewrite list_lookup_middle.
    + rewrite lookup_ge_None_2; [done |]. rewrite length_app. simpl. lia.
Qed.

Lemma item_setItem_other_row row row' col col' text s :
  row ≠ row' → 0 ≤ row →
  item row col (setItem row' col' text s) = item row col s.
Proof.
  intros Hne Hrow. unfold setItem.
  case_bool_decide as Hin; [| done].
  unfold item; simpl. case_bool_decide; [| done].
  rewrite list_lookup_alter_ne; [done | lia].
Qed.

Lemma with_row_rowCount i s :
  0 ≤ i ≤ rowCount s → rowCount (with_row i s) = Z.max (rowCount s) (i + 1).
Proof.
  intros Hi. unfold with_row. case_bool_decide.
  - rewrite rowCount_insertRow_end. lia.
  - lia.
Qed.

Lemma with_row_columnCount i s : columnCount (with_row i s) = columnCount s.
Proof. unfold with_row. case_bool_decide; [apply insertRow_columnCount | done]. Qed.

Lemma with_row_item i row col s : item row col (with_row i s) = item row col s.
Proof. unfold with_row. case_bool_decide; [apply item_insertRow_end | done]. Qed.

Lemma add_files_step col i file files s :
  LoadingWidget.add_files col i (file :: files) s
  = LoadingWidget.add_files col (i + 1) files
      (setItem i col (basename file) (with_row i s)).
Proof. reflexivity. Qed.

Lemma add_files_rowCount col i files s :
  0 ≤ i ≤ rowCount s →
  rowCount (LoadingWidget.add_files col i files s)
  = Z.max (rowCount s) (i + Z.of_nat (length files)).
Proof.
  revert i s. induction files as [| f files IH]; intros i s Hi.
  - simpl. lia.
  - rewrite add_files_step, IH.
    + rewrite setItem_rowCount, with_row_rowCount by done.
      simpl length. lia.
    + rewrite setItem_rowCount, with_row_rowCount by done. lia.
Qed.

Lemma add_files_other_column col col' i files s row :
  col ≠ col' →
  item row col (LoadingWidget.add_files col' i files s) = item row col s.
Proof.
  intros Hne. revert i s. induction files as [| f files IH]; intros i s.
  - done.
  - by rewrite add_files_step, IH, item_setItem_other_column, with_row_item.
Qed.

Lemma add_files_earlier_row col i files s row :
  0 ≤ row < i →
  item row col (LoadingWidget.add_files col i files s) = item row col s.
Proof.
  revert i s. induction files as [| f files IH]; intros i s Hrow.
  - done.
  - rewrite add_files_step, IH by lia.
    rewrite item_setItem_other_row by lia. apply with_row_item.
Qed.

Lemma add_files_hit col i files s k file :
  0 ≤ col < columnCount s → 0 ≤ i ≤ rowCount s →
  files !! k = Some file →
  item (i + Z.of_nat k) col (LoadingWidget.add_files col i files s)
  = Some (basename file).
Proof.
  revert i s k. induction files as [| f files IH]; intros i s k Hcol Hi Hk.
  - done.
  - rewrite add_files_step. destruct k as [| k]; simpl in Hk.
    + injection Hk as ->. rewrite Z.add_0_r.
      rewrite add_files_earlier_row by lia.
      apply item_setItem_eq.
      * rewrite with_row_rowCount by done. lia.
      * by rewrite with_row_columnCount.
    + replace (i + Z.of_nat (S k)) with (i + 1 + Z.of_nat k) by lia.
      apply IH; [| | done].
      * by rewrite setItem_columnCount, with_row_columnCount.
      * rewrite setItem_rowCount, with_row_rowCount by done. lia.
Qed.

(** [update_queue] writes the status column, and the progress column of a
    four-column sheet; no other cell. *)
Lemma update_queue_other_cells s row col :
  col ≠ columnCount (LoadingWidget.fileSheet s) - 1 →
  (columnCount (LoadingWidget.fileSheet s) = 4 → col ≠ 2) →
  item row col (LoadingWidget.fileSheet (LoadingWidget.update_queue s))
  = item row col (LoadingWidget.fileSheet s).
Proof.
  intros Hlast Hprogress. unfold LoadingWidget.update_queue.
  case_bool_decide as H4; simpl.
  - rewrite (proj2 (fill_column_counts _ _ _)) in H4.
    rewrite !fill_column_other_column; [done | done |].
    specialize (Hprogress H4). lia.
  - by rewrite fill_column_other_column.
Qed.

End AddFiles.

(** X2: [add_column1_files] shows every file of column 1 in the sheet: on a
    sheet with at least two columns it leaves as many rows as the larger of
    the old row count and the number of files, the first cell of row [k]
    holds the base name of the [k]-th file, and every row is marked queued.
    [add_column2_files] does the same with the second cell once the sheet
    has at least three columns. *)
Theorem add_column_files_fill_sheet (s : LoadingWidget.t) :
  2 ≤ FileSheet.columnCount (LoadingWidget.fileSheet s) →
  (let sheet' := LoadingWidget.fileSheet (LoadingWidget.add_column1_files s) in
   FileSheet.rowCount sheet'
     = Z.max (FileSheet.rowCount (LoadingWidget.fileSheet s))
             (Z.of_nat (length (LoadingWidget.column1_files s)))
   ∧ (∀ (k : nat) file, LoadingWidget.column1_files s !! k = Some file →
        FileSheet.item (Z.of_nat k) 0 sheet' = Some (basename file))
   ∧ (∀ row, 0 ≤ row < FileSheet.rowCount sheet' →
        FileSheet.item row
          (FileSheet.columnCount (LoadingWidget.fileSheet s) - 1) sheet'
        = Some "Queued..."))
  ∧ (3 ≤ FileSheet.columnCount (LoadingWidget.fileSheet s) →
     let sheet' := LoadingWidget.fileSheet (LoadingWidget.add_column2_files s) in
     FileSheet.rowCount sheet'
       = Z.max (FileSheet.rowCount (LoadingWidget.fileSheet s))
               (Z.of_nat (length (LoadingWidget.column2_files s)))
     ∧ (∀ (k : nat) file, LoadingWidget.column2_files s !! k = Some file →
          FileSheet.item (Z.of_nat k) 1 sheet' = Some (basename file))).
Proof.
  intros Hcols.
  assert (0 ≤ FileSheet.rowCount (LoadingWidget.fileSheet s)) as Hrows
    by (unfold FileSheet.rowCount; lia).
  split; [split; [| split] | intros Hcols3; split].
  - unfold LoadingWidget.add_column1_files.
    rewrite (proj1 (update_queue_counts _)). simpl.
    rewrite add_files_rowCount by lia. lia.
  - intros k file Hk. unfold LoadingWidget.add_column1_files.
    rewrite update_queue_other_cells; simpl;
      rewrite ?add_files_columnCount; [| lia | lia].
    replace (Z.of_nat k) with (0 + Z.of_nat k) by lia.
    apply add_files_hit; [lia | lia | done].
  - intros row Hrow. unfold LoadingWidget.add_column1_files in *.
    rewrite (proj1 (update_queue_counts _)) in Hrow. simpl in Hrow.
    rewrite <- (add_files_columnCount 0 0 (LoadingWidget.column1_files s)).
    apply (update_queue_status
             (LoadingWidget.set_fileSheet
                (LoadingWidget.add_files 0 0 (LoadingWidget.column1_files s)
                   (LoadingWidget.fileSheet s)) s)); simpl;
      rewrite ?add_files_columnCount; [lia | done].
  - unfold LoadingWidget.add_column2_files.
    rewrite (proj1 (update_queue_counts _)). simpl.
    rewrite add_files_rowCount by lia. lia.
  - intros k file Hk. unfold LoadingWidget.add_column2_files.
    rewrite update_queue_other_cells; simpl;
      rewrite ?add_files_columnCount; [| lia | lia].
    replace (Z.of_nat k) with (0 + Z.of_nat k) by lia.
    apply add_files_hit; [lia | lia | done].
Qed.

Lemma add_column_files_fill_sheet_witness :
  FileSheet.rowCount
    (LoadingWidget.fileSheet (LoadingWidget.add_column1_files two_csv_graphs))
    = 2
  ∧ FileSheet.item 1 1
      (LoadingWidget.fileSheet (LoadingWidget.add_column2_files two_csv_graphs))
    = Some "b_e.csv".
Proof.
  destruct (add_column_files_fill_sheet two_csv_graphs) as [(Hrows & _) Hsecond].
  - by vm_compute.
  - split; [exact Hrows |].
    destruct Hsecond as [_ Hcell]; [by vm_compute |].
    exact (Hcell 1%nat "/data/b_e.csv" eq_refl).
Defined.

(** ** Removing rows, continued *)

Lemma delete_beyond {A : Type} (l : list A) (i : nat) :
  (length l ≤ i)%nat → delete i l = l.
Proof.
  revert i. induction l as [| x l IH]; intros i Hi; [by destruct i |].
  destruct i as [| i]; simpl in *; [lia |]. f_equal. apply IH. lia.
Qed.

(** X3: on the three-column sheet, removing a row that both columns have
    returns normally, shortens each column by one, keeps the entries
    before the row and moves every later entry up by one place. *)
Theorem remove_file_csv_shifts (s : LoadingWidget.t) (index : Z) :
  FileSheet.columnCount (LoadingWidget.fileSheet s) = 3 →
  0 ≤ index < Z.of_nat (length (LoadingWidget.column1_files s)) →
  index < Z.of_nat (length (LoadingWidget.column2_files s)) →
  ∃ s', LoadingWidget.remove_file true index s = Return s'
    ∧ S (length (LoadingWidget.column1_files s'))
      = length (LoadingWidget.column1_files s)
    ∧ S (length (LoadingWidget.column2_files s'))
      = length (LoadingWidget.column2_files s)
    ∧ (∀ j : nat, (j < Z.to_nat index)%nat →
         LoadingWidget.column1_files s' !! j = LoadingWidget.column1_files s !! j
         ∧ LoadingWidget.column2_files s' !! j
           = LoadingWidget.column2_files s !! j)
    ∧ (∀ j : nat, (Z.to_nat index ≤ j)%nat →
         LoadingWidget.column1_files s' !! j
           = LoadingWidget.column1_files s !! S j
         ∧ LoadingWidget.column2_files s' !! j
           = LoadingWidget.column2_files s !! S j)
    ∧ FileSheet.rows (LoadingWidget.fileSheet s')
      = delete (Z.to_nat index) (FileSheet.rows (LoadingWidget.fileSheet s)).
Proof.
  intros Hcols H1 H2. eexists. split; [by apply remove_file_csv |].
  simpl. repeat split.
  - rewrite length_delete; [lia |]. apply lookup_lt_is_Some. lia.
  - rewrite length_delete; [lia |]. apply lookup_lt_is_Some. lia.
  - by apply list_lookup_delete_lt.
  - by apply list_lookup_delete_lt.
  - by apply list_lookup_delete_ge.
  - by apply list_lookup_delete_ge.
  - unfold FileSheet.removeRow. case_bool_decide as Hrow; [done |].
    simpl. rewrite delete_beyond; [done |]. unfold FileSheet.rowCount in Hrow. lia.
Qed.

Lemma remove_file_csv_shifts_witness :
  ∃ s', LoadingWidget.remove_file true 0 two_csv_graphs = Return s'
    ∧ LoadingWidget.column1_files s' !! 0%nat = Some "/data/b_v.csv"
    ∧ LoadingWidget.column2_files s' !! 0%nat = Some "/data/b_e.csv".
Proof.
  destruct (remove_file_csv_shifts two_csv_graphs 0)
    as (s' & Hs' & _ & _ & _ & Hshift & _).
  - reflexivity.
  - by vm_compute.
  - reflexivity.
  - exists s'. split; [exact Hs' |].
    destruct (Hshift 0%nat) as [H1 H2]; [simpl; lia |].
    split; [by rewrite H1 | by rewrite H2].
Defined.

(** X4: [remove_file] does nothing without a selection, and nothing when
    the current row lies beyond the sheet and both columns; for a current
    row that is not negative it never raises, and it keeps the mode, the
    results folder and the catalog. *)
Theorem remove_file_quiet_cases (s : LoadingWidget.t) (index : Z) :
  LoadingWidget.remove_file false index s = Return s
  ∧ (FileSheet.rowCount (LoadingWidget.fileSheet s) ≤ index →
     Z.of_nat (length (LoadingWidget.column1_files s)) ≤ index →
     Z.of_nat (length (LoadingWidget.column2_files s)) ≤ index →
     LoadingWidget.remove_file true index s = Return s)
  ∧ (0 ≤ index →
     ∃ s', LoadingWidget.remove_file true index s = Return s'
           ∧ settings s' = settings s).
Proof.
  split; [done | split; [apply remove_file_out_of_range |]].
  intros Hindex. unfold LoadingWidget.remove_file. simpl.
  destruct (decide (index < Z.of_nat (length (LoadingWidget.column1_files s))))
    as [H1 | H1];
    [rewrite (bool_decide_eq_true_2 _ H1), py_del_in_range by lia
    | rewrite (bool_decide_eq_false_2 _ H1)];
    simpl;
    (destruct (decide (FileSheet.columnCount (LoadingWidget.fileSheet s) = 3))
       as [H3 | H3];
     [rewrite (bool_decide_eq_true_2 _ H3)
     | rewrite (bool_decide_eq_false_2 _ H3); by eexists]);
    (destruct (decide (index < Z.of_nat (length (LoadingWidget.column2_files s))))
       as [H2 | H2];
     [rewrite (bool_decide_eq_true_2 _ H2), py_del_in_range by lia
     | rewrite (bool_decide_eq_false_2 _ H2)]);
    by eexists.
Qed.

Lemma remove_file_quiet_cases_witness :
  LoadingWidget.remove_file true 7 two_annotated_volumes
    = Return two_annotated_volumes
  ∧ ∃ s', LoadingWidget.remove_file true 1 two_annotated_volumes = Return s'
          ∧ settings s' = settings two_annotated_volumes.
Proof.
  destruct (remove_file_quiet_cases two_annotated_volumes 7) as (_ & Hout & _).
  destruct (remove_file_quiet_cases two_annotated_volumes 1) as (_ & _ & Hin).
  split.
  - apply Hout; by vm_compute.
  - apply Hin. lia.
Defined.

(** ** The file check, continued *)

(** X5: in the modes without a second column (plain volumes, graphs in a
    single-file format) the file check passes exactly when column 1 is not
    empty, whatever column 2 and the catalog hold; for CSV graphs it passes
    exactly when column 1 is not empty and the two columns have the same
    length. *)
Theorem file_check_single_and_csv (p : AnalysisPage.t) :
  (requires_column2
     (spec_resolve (LoadingWidget.datasetType (AnalysisPage.Loading p))
                   (LoadingWidget.annotationType (AnalysisPage.Loading p))
                   (AnalysisPage.graphFormat p)) = false →
   (AnalysisPage.file_check p = true
    ↔ LoadingWidget.column1_files (AnalysisPage.Loading p) ≠ []))
  ∧ (LoadingWidget.datasetType (AnalysisPage.Loading p) = Graph →
     AnalysisPage.graphFormat p = "CSV" →
     (AnalysisPage.file_check p = true
      ↔ LoadingWidget.column1_files (AnalysisPage.Loading p) ≠ []
        ∧ length (LoadingWidget.column1_files (AnalysisPage.Loading p))
          = length (LoadingWidget.column2_files (AnalysisPage.Loading p)))).
Proof.
  unfold AnalysisPage.file_check, AnalysisPage.column_file_check,
    AnalysisPage.dataset_text, AnalysisPage.annotation_text.
  split.
  - intros Hmode.
    destruct (LoadingWidget.datasetType (AnalysisPage.Loading p)),
             (LoadingWidget.annotationType (AnalysisPage.Loading p));
      simpl in *; try done;
      destruct (String.eqb (AnalysisPage.graphFormat p) "CSV"); simpl in *;
      try done;
      destruct (LoadingWidget.column1_files (AnalysisPage.Loading p));
      simpl; by split.
  - intros -> ->.
    destruct (Nat.eqb_spec
                (length (LoadingWidget.column1_files (AnalysisPage.Loading p)))
                (length (LoadingWidget.column2_files (AnalysisPage.Loading p))))
      as [Heq | Hne];
      destruct (LoadingWidget.column1_files (AnalysisPage.Loading p))
        as [| f c1]; simpl.
    + split; [done | by intros [? _]].
    + split; [intros _; by split | done].
    + split; [done | by intros [? _]].
    + split; [done | by intros [_ ?]].
Qed.

Lemma file_check_single_and_csv_witness :
  AnalysisPage.file_check graph_batch = true
  ∧ AnalysisPage.file_check
      (AnalysisPage.mk false two_csv_graphs "CSV" true None) = true.
Proof.
  split.
  - apply (proj1 (file_check_single_and_csv graph_batch)); [reflexivity | done].
  - apply (proj2 (file_check_single_and_csv
                    (AnalysisPage.mk false two_csv_graphs "CSV" true None)));
      [reflexivity | reflexivity | by split].
Defined.

(** ** What the slots leave alone *)

Section Settings.

Import LoadingWidget.

Lemma settings_set_column1_files v s : settings (set_column1_files v s) = settings s.
Proof. done. Qed.

Lemma settings_set_column2_files v s : settings (set_column2_files v s) = settings s.
Proof. done. Qed.

Lemma settings_set_fileSheet v s : settings (set_fileSheet v s) = settings s.
Proof. done. Qed.

Lemma settings_clear_files s : settings (clear_files s) = settings s.
Proof. done. Qed.

Lemma settings_update_queue s : settings (update_queue s) = settings s.
Proof. by rewrite update_queue_sheet_only. Qed.

Lemma settings_add_column1_files s : settings (add_column1_files s) = settings s.
Proof. by rewrite add_column1_files_sheet_only. Qed.

Lemma settings_add_column2_files s : settings (add_column2_files s) = settings s.
Proof. by rewrite add_column2_files_sheet_only. Qed.

Lemma graphFormat_set_Loading l p :
  AnalysisPage.graphFormat (AnalysisPage.set_Loading l p)
  = AnalysisPage.graphFormat p.
Proof. done. Qed.

Lemma graphFormat_set_analyzed b p :
  AnalysisPage.graphFormat (AnalysisPage.set_analyzed b p)
  = AnalysisPage.graphFormat p.
Proof. done. Qed.

Lemma a_thread_set_Loading l p :
  AnalysisPage.a_thread (AnalysisPage.set_Loading l p) = AnalysisPage.a_thread p.
Proof. done. Qed.

Lemma a_thread_set_analyzed b p :
  AnalysisPage.a_thread (AnalysisPage.set_analyzed b p) = AnalysisPage.a_thread p.
Proof. done. Qed.

End Settings.

#[global] Hint Rewrite
  settings_set_column1_files settings_set_column2_files settings_set_fileSheet
  settings_clear_files settings_update_queue settings_add_column1_files
  settings_add_column2_files graphFormat_set_Loading graphFormat_set_analyzed
  a_thread_set_Loading a_thread_set_analyzed : registry.

Lemma store_files_settings c1files c2files p :
  let p' := AnalysisPage.store_files c1files c2files p in
  settings (AnalysisPage.Loading p') = settings (AnalysisPage.Loading p)
  ∧ AnalysisPage.graphFormat p' = AnalysisPage.graphFormat p
  ∧ AnalysisPage.a_thread p' = AnalysisPage.a_thread p.
Proof.
  unfold AnalysisPage.store_files.
  destruct (AnalysisPage.analyzed p),
    c1files as [[| f1 c1] |], c2files as [[| f2 c2] |];
    cbn [opt_list_truthy list_truthy];
    autorewrite with registry; done.
Qed.

Lemma settings_mode s s' :
  settings s' = settings s →
  LoadingWidget.datasetType s' = LoadingWidget.datasetType s
  ∧ LoadingWidget.annotationType s' = LoadingWidget.annotationType s
  ∧ LoadingWidget.annotation_data s' = LoadingWidget.annotation_data s
  ∧ LoadingWidget.results_folder s' = LoadingWidget.results_folder s.
Proof. unfold settings. by intros [= -> -> -> ->]. Qed.

(** ** Run requests, continued *)

(** X6: a run request never touches the registry: whatever it returns,
    the loading widget (columns, sheet, catalog, mode) and the graph format
    are as before.  It shows either the load-files warning, and then the
    page is unchanged altogether, or nothing, and then the page was not
    analyzed, passed the file check, and is marked as analyzed. *)
Theorem run_analysis_keeps_registry
    (p p' : AnalysisPage.t) (shown : list dialog) :
  AnalysisPage.run_analysis p = Return (p', shown) →
  AnalysisPage.Loading p' = AnalysisPage.Loading p
  ∧ AnalysisPage.graphFormat p' = AnalysisPage.graphFormat p
  ∧ ((shown = [AnalysisPage.analysis_warning] ∧ p' = p)
     ∨ (shown = []
        ∧ AnalysisPage.analyzed p = false
        ∧ AnalysisPage.file_check p = true
        ∧ AnalysisPage.analyzed p' = true)).
Proof.
  unfold AnalysisPage.run_analysis.
  destruct (AnalysisPage.analyzed p) eqn:Han.
  { intros [= <- <-]. repeat split; by left. }
  destruct (AnalysisPage.file_check p) eqn:Hfc; simpl.
  2: { intros [= <- <-]. repeat split; by left. }
  destruct (String.eqb (AnalysisPage.dataset_text p) "Volume"); simpl.
  - intros [= <- <-]. repeat split; by right.
  - destruct (String.eqb (AnalysisPage.dataset_text p) "Graph "); simpl.
    + intros [= <- <-]. repeat split; by right.
    + destruct (AnalysisPage.a_thread p) as [th |]; simpl; [| done].
      intros [= <- <-]. repeat split; by right.
Qed.

Lemma run_analysis_keeps_registry_witness :
  ∃ p', AnalysisPage.run_analysis volume_batch = Return (p', [])
        ∧ AnalysisPage.Loading p' = AnalysisPage.Loading volume_batch.
Proof.
  destruct (AnalysisPage.run_analysis volume_batch) as [[p' shown] | e] eqn:Hrun;
    [| by vm_compute in Hrun].
  assert (shown = []) as -> by (vm_compute in Hrun; by injection Hrun).
  exists p'. split; [done |].
  by destruct (run_analysis_keeps_registry volume_batch p' [] Hrun) as (? & _).
Defined.

(** X7: a run request on a volume batch that is not analyzed and passes
    the file check replaces whatever thread the page held by a new volume
    session built from the results folder, the annotation type and the
    current columns and catalog, connects its three signals to the page's
    slots, starts it, and marks the page as analyzed. *)
Theorem run_analysis_starts_volume_session (p : AnalysisPage.t) :
  AnalysisPage.analyzed p = false →
  AnalysisPage.file_check p = true →
  LoadingWidget.datasetType (AnalysisPage.Loading p) = Volume →
  ∃ p' th,
    AnalysisPage.run_analysis p = Return (p', [])
    ∧ AnalysisPage.a_thread p' = Some th
    ∧ target th
      = VolumeThread
          (AnalysisOptions
             (LoadingWidget.results_folder (AnalysisPage.Loading p))
             (Some (annotationType_currentText
                      (LoadingWidget.annotationType (AnalysisPage.Loading p)))))
          (LoadingWidget.column1_files (AnalysisPage.Loading p))
          (LoadingWidget.column2_files (AnalysisPage.Loading p))
          (LoadingWidget.annotation_data (AnalysisPage.Loading p))
    ∧ connections th
      = [("button_lock", "button_locking");
         ("selection_signal", "update_row_selection");
         ("analysis_status", "update_status")]
    ∧ started th = true
    ∧ AnalysisPage.analyzed p' = true.
Proof.
  intros Han Hfc Hd. eexists _, _.
  split; [by apply run_analysis_volume |]. done.
Qed.

Lemma run_analysis_starts_volume_session_witness :
  ∃ p' th,
    AnalysisPage.run_analysis volume_batch = Return (p', [])
    ∧ AnalysisPage.a_thread p' = Some th
    ∧ started th = true.
Proof.
  destruct (run_analysis_starts_volume_session volume_batch)
    as (p' & th & Hrun & Hth & _ & _ & Hstarted & _); try reflexivity.
  by exists p', th.
Defined.

(** ** Load requests, continued *)

Section LoadFiles.

Import AnalysisPage.

(** The registry after the second half of [load_files]. *)
Lemma store_files_columns c1files c2files p :
  let p' := store_files c1files c2files p in
  analyzed p' = false
  ∧ LoadingWidget.column1_files (Loading p')
    = ((if analyzed p then [] else LoadingWidget.column1_files (Loading p))
       ++ default [] c1files)%list
  ∧ LoadingWidget.column2_files (Loading p')
    = ((if analyzed p then [] else LoadingWidget.column2_files (Loading p))
       ++ default [] c2files)%list.
Proof.
  unfold store_files.
  destruct (analyzed p) eqn:Han,
    c1files as [[| f1 c1] |], c2files as [[| f2 c2] |];
    cbn [opt_list_truthy list_truthy default from_option id];
    autorewrite with registry; rewrite ?app_nil_r; done.
Qed.

Lemma store_files_nothing p :
  analyzed p = false → store_files (Some []) None p = p.
Proof. intros Han. unfold store_files. by rewrite Han. Qed.

Lemma store_files_nothing_analyzed p :
  analyzed p = true → store_files (Some []) None p = cleared p.
Proof. intros Han. unfold store_files. by rewrite Han. Qed.

Lemma load_files_single_column ui p :
  requires_column2
    (spec_resolve (LoadingWidget.datasetType (Loading p))
                  (LoadingWidget.annotationType (Loading p))
                  (graphFormat p)) = false →
  load_files ui p
  = Return (store_files
              (Some (picked_files ui (LoadingWidget.datasetType (Loading p))))
              None p).
Proof.
  intros Hmode. unfold load_files.
  by rewrite select_files_single_column.
Qed.

Lemma FileLoader_init_raises dataset_type annotation graph_format :
  FileLoader.init dataset_type annotation graph_format
  = Raise (AttributeError "cancel_load").
Proof.
  unfold FileLoader.init. by destruct (String.eqb dataset_type "Volume").
Qed.

Lemma file_check_plain_volume p :
  LoadingWidget.datasetType (Loading p) = Volume →
  LoadingWidget.annotationType (Loading p) = Ann_None →
  file_check p = list_truthy (LoadingWidget.column1_files (Loading p)).
Proof.
  intros Hd Ha. unfold file_check, dataset_text, annotation_text.
  rewrite Hd, Ha. simpl. by destruct (list_truthy _).
Qed.

End LoadFiles.

(** X8: in a single-column mode, a load request on a page that is not
    analyzed returns and appends the picked files to column 1, keeping what
    was loaded before; column 2, the mode and the catalog are untouched; and
    a request in which nothing is picked leaves the page as it is. *)
Theorem load_files_appends (ui : AnalysisPage.picker) (p : AnalysisPage.t) :
  AnalysisPage.analyzed p = false →
  requires_column2
    (spec_resolve (LoadingWidget.datasetType (AnalysisPage.Loading p))
                  (LoadingWidget.annotationType (AnalysisPage.Loading p))
                  (AnalysisPage.graphFormat p)) = false →
  ∃ p', AnalysisPage.load_files ui p = Return p'
    ∧ LoadingWidget.column1_files (AnalysisPage.Loading p')
      = (LoadingWidget.column1_files (AnalysisPage.Loading p)
         ++ picked_files ui
              (LoadingWidget.datasetType (AnalysisPage.Loading p)))%list
    ∧ LoadingWidget.column2_files (AnalysisPage.Loading p')
      = LoadingWidget.column2_files (AnalysisPage.Loading p)
    ∧ settings (AnalysisPage.Loading p') = settings (AnalysisPage.Loading p)
    ∧ AnalysisPage.analyzed p' = false
    ∧ (picked_files ui (LoadingWidget.datasetType (AnalysisPage.Loading p)) = []
       → p' = p).
Proof.
  intros Han Hmode. eexists. split; [by apply load_files_single_column |].
  destruct (store_files_columns
              (Some (picked_files ui
                       (LoadingWidget.datasetType (AnalysisPage.Loading p))))
              None p) as (Han' & Hc1 & Hc2).
  rewrite Han in Hc1, Hc2. simpl in Hc1, Hc2. rewrite app_nil_r in Hc2.
  repeat split; try done.
  - apply store_files_settings.
  - intros ->. by apply store_files_nothing.
Qed.

Lemma load_files_appends_witness :
  ∃ p', AnalysisPage.load_files picks volume_batch = Return p'
    ∧ LoadingWidget.column1_files (AnalysisPage.Loading p')
      = ["/data/a.nii"; "/data/a.nii"; "/data/b.nii"].
Proof.
  destruct (load_files_appends picks volume_batch)
    as (p' & Hload & Hc1 & _); try reflexivity.
  exists p'. split; [exact Hload | exact Hc1].
Defined.

(** X9: in the modes that pair two columns (annotated volumes, CSV graphs)
    a load request cannot succeed: building the [FileLoader] dialog looks
    up [self.cancel_load], which the class does not define, so the
    constructor raises [AttributeError] for every mode, and [load_files]
    raises it before it reads or changes the registry. *)
Theorem load_files_paired_modes_raise
    (ui : AnalysisPage.picker) (p : AnalysisPage.t) :
  (∀ dataset_type annotation graph_format,
     FileLoader.init dataset_type annotation graph_format
     = Raise (AttributeError "cancel_load"))
  ∧ (requires_column2
       (spec_resolve (LoadingWidget.datasetType (AnalysisPage.Loading p))
                     (LoadingWidget.annotationType (AnalysisPage.Loading p))
                     (AnalysisPage.graphFormat p)) = true →
     AnalysisPage.load_files ui p = Raise (AttributeError "cancel_load")).
Proof.
  split; [apply FileLoader_init_raises |].
  intros Hmode.
  unfold AnalysisPage.load_files, AnalysisPage.select_files,
    AnalysisPage.dataset_text, AnalysisPage.annotation_text.
  rewrite FileLoader_init_raises.
  destruct (LoadingWidget.datasetType (AnalysisPage.Loading p)),
           (LoadingWidget.annotationType (AnalysisPage.Loading p));
    simpl in *; try done;
    destruct (String.eqb (AnalysisPage.graphFormat p) "CSV"); done.
Qed.

Lemma load_files_paired_modes_raise_witness :
  AnalysisPage.load_files picks (annotated_batch None)
  = Raise (AttributeError "cancel_load").
Proof.
  apply (proj2 (load_files_paired_modes_raise picks (annotated_batch None))).
  reflexivity.
Defined.

(** X10: on an analyzed page in a single-column mode, a load request in
    which the user picks nothing still empties the registry and resets the
    analyzed mark: the page is left cleared, with no file to run. *)
Theorem load_files_nothing_after_analysis
    (ui : AnalysisPage.picker) (p : AnalysisPage.t) :
  AnalysisPage.analyzed p = true →
  requires_column2
    (spec_resolve (LoadingWidget.datasetType (AnalysisPage.Loading p))
                  (LoadingWidget.annotationType (AnalysisPage.Loading p))
                  (AnalysisPage.graphFormat p)) = false →
  picked_files ui (LoadingWidget.datasetType (AnalysisPage.Loading p)) = [] →
  AnalysisPage.load_files ui p = Return (cleared p)
  ∧ AnalysisPage.file_check (cleared p) = false.
Proof.
  intros Han Hmode Hpicked.
  rewrite load_files_single_column, Hpicked by done.
  rewrite store_files_nothing_analyzed by done. split; [done |].
  apply file_check_no_files. unfold cleared. by autorewrite with registry.
Qed.

Lemma load_files_nothing_after_analysis_witness :
  AnalysisPage.load_files (AnalysisPage.Picker [] [] []) analyzed_volume_batch
  = Return (cleared analyzed_volume_batch).
Proof.
  by destruct (load_files_nothing_after_analysis
                 (AnalysisPage.Picker [] [] []) analyzed_volume_batch
                 eq_refl eq_refl eq_refl).
Defined.

(** X11: in plain volume mode, a load request in which at least one volume
    is picked makes the batch runnable, analyzed before or not: the request
    returns, the file check passes, and the run request that follows starts
    a volume session on exactly the files now in column 1. *)
Theorem load_then_run_volumes (ui : AnalysisPage.picker) (p : AnalysisPage.t) :
  LoadingWidget.datasetType (AnalysisPage.Loading p) = Volume →
  LoadingWidget.annotationType (AnalysisPage.Loading p) = Ann_None →
  AnalysisPage.load_volumes ui ≠ [] →
  ∃ p1 p2 th options c2 catalog,
    AnalysisPage.load_files ui p = Return p1
    ∧ AnalysisPage.file_check p1 = true
    ∧ AnalysisPage.run_analysis p1 = Return (p2, [])
    ∧ AnalysisPage.a_thread p2 = Some th
    ∧ target th
      = VolumeThread options
          ((if AnalysisPage.analyzed p then []
            else LoadingWidget.column1_files (AnalysisPage.Loading p))
           ++ AnalysisPage.load_volumes ui)%list
          c2 catalog
    ∧ started th = true.
Proof.
  intros Hd Ha Hpicked.
  pose (p1 := AnalysisPage.store_files (Some (AnalysisPage.load_volumes ui))
                None p).
  destruct (store_files_columns (Some (AnalysisPage.load_volumes ui)) None p)
    as (Han1 & Hc1 & _).
  destruct (store_files_settings (Some (AnalysisPage.load_volumes ui)) None p)
    as (Hset & _).
  apply settings_mode in Hset as (Hd1 & Ha1 & _).
  fold p1 in Han1, Hc1, Hd1, Ha1. simpl in Hc1.
  assert (AnalysisPage.file_check p1 = true) as Hfc.
  { rewrite file_check_plain_volume by congruence. rewrite Hc1.
    destruct (AnalysisPage.load_volumes ui); [done |].
    by destruct (if AnalysisPage.analyzed p then _ else _). }
  eexists p1, _, _, _, _, _. split; [| split; [exact Hfc | split]].
  - rewrite load_files_single_column by (by rewrite Hd, Ha).
    by rewrite Hd.
  - apply run_analysis_volume; [done | done | congruence].
  - simpl. by rewrite Hc1.
Qed.

Lemma load_then_run_volumes_witness :
  ∃ p1 p2, AnalysisPage.load_files picks analyzed_volume_batch = Return p1
           ∧ AnalysisPage.run_analysis p1 = Return (p2, []).
Proof.
  destruct (load_then_run_volumes picks analyzed_volume_batch)
    as (p1 & p2 & th & o & c2 & cat & Hload & _ & Hrun & _);
    [reflexivity | reflexivity | done |].
  by exists p1, p2.
Defined.

(** ** Formats and mode changes, continued *)

Section Formats.

Import FileSheet.

Lemma item_blank_rows n labels (rs : list (gmap Z string)) row col :
  item row col (mk n labels ((λ _, ∅) <$> rs)) = None.
Proof.
  unfold item. simpl. case_bool_decide; [| done].
  rewrite list_lookup_fmap. by destruct (rs !! Z.to_nat row).
Qed.

Lemma rowCount_blank_rows n labels (s : t) :
  rowCount (mk n labels ((λ _, ∅) <$> rows s)) = rowCount s.
Proof. unfold rowCount. simpl. by rewrite length_fmap. Qed.

(** The name cells and the annotation-name cells after [add_column1_files]. *)
Lemma add_column1_files_cells s :
  2 ≤ columnCount (LoadingWidget.fileSheet s) →
  let sheet' := LoadingWidget.fileSheet (LoadingWidget.add_column1_files s) in
  rowCount sheet'
    = Z.max (rowCount (LoadingWidget.fileSheet s))
            (Z.of_nat (length (LoadingWidget.column1_files s)))
  ∧ (∀ (k : nat) file, LoadingWidget.column1_files s !! k = Some file →
       item (Z.of_nat k) 0 sheet' = Some (basename file))
  ∧ (∀ row col, col ≠ 0 →
       col ≠ columnCount (LoadingWidget.fileSheet s) - 1 →
       (columnCount (LoadingWidget.fileSheet s) = 4 → col ≠ 2) →
       item row col sheet' = item row col (LoadingWidget.fileSheet s)).
Proof.
  intros Hcols.
  assert (0 ≤ rowCount (LoadingWidget.fileSheet s)) as Hrows
    by (unfold rowCount; lia).
  unfold LoadingWidget.add_column1_files. split; [| split].
  - rewrite (proj1 (update_queue_counts _)). simpl.
    rewrite add_files_rowCount by lia. lia.
  - intros k file Hk.
    rewrite update_queue_other_cells; simpl;
      rewrite ?add_files_columnCount; [| lia | lia].
    replace (Z.of_nat k) with (0 + Z.of_nat k) by lia.
    apply add_files_hit; [lia | lia | done].
  - intros row col H0 Hlast Hprogress.
    rewrite update_queue_other_cells; simpl;
      rewrite ?add_files_columnCount; [| done | done].
    by apply add_files_other_column.
Qed.

End Formats.

(** X12: each of the three formats keeps the number of rows of the sheet
    and empties every cell, whatever the sheet held; it sets the column
    count and the header labels of its schema. *)
Theorem formats_keep_rows_blank_cells (sheet : FileSheet.t) (row col : Z) :
  (FileSheet.rowCount (FileSheet.init_default sheet) = FileSheet.rowCount sheet
   ∧ FileSheet.item row col (FileSheet.init_default sheet) = None
   ∧ FileSheet.columnCount (FileSheet.init_default sheet) = 2
   ∧ FileSheet.header (FileSheet.init_default sheet)
     = ["File Name"; "File Status"])
  ∧ (FileSheet.rowCount (FileSheet.init_annotation sheet)
     = FileSheet.rowCount sheet
     ∧ FileSheet.item row col (FileSheet.init_annotation sheet) = None
     ∧ FileSheet.columnCount (FileSheet.init_annotation sheet) = 4
     ∧ FileSheet.header (FileSheet.init_annotation sheet)
       = ["File Name"; "Annotation File Name"; "Regions Processed";
          "File Status"])
  ∧ (FileSheet.rowCount (FileSheet.init_csv sheet) = FileSheet.rowCount sheet
     ∧ FileSheet.item row col (FileSheet.init_csv sheet) = None
     ∧ FileSheet.columnCount (FileSheet.init_csv sheet) = 3
     ∧ FileSheet.header (FileSheet.init_csv sheet)
       = ["File Name - Vertices"; "File Name - Edges"; "File Status"]).
Proof.
  format_sheets.
  repeat split; try apply rowCount_blank_rows; apply item_blank_rows.
Qed.

(** X13: after the annotation type has changed to ID or RGB, the sheet has
    four columns and one row per file of column 1, at least as many as
    before; the first cell of each row shows the base name of its file; but
    the second cell of every row is empty, although [column2_files] is kept:
    the annotation names are not written back. *)
Theorem annotation_options_refills_names (s : LoadingWidget.t) :
  LoadingWidget.annotationType s ≠ Ann_None →
  let s' := LoadingWidget.annotation_options s in
  FileSheet.columnCount (LoadingWidget.fileSheet s') = 4
  ∧ FileSheet.rowCount (LoadingWidget.fileSheet s')
    = Z.max (FileSheet.rowCount (LoadingWidget.fileSheet s))
            (Z.of_nat (length (LoadingWidget.column1_files s)))
  ∧ LoadingWidget.column2_files s' = LoadingWidget.column2_files s
  ∧ (∀ (k : nat) file, LoadingWidget.column1_files s !! k = Some file →
       FileSheet.item (Z.of_nat k) 0 (LoadingWidget.fileSheet s')
       = Some (basename file))
  ∧ (∀ row, FileSheet.item row 1 (LoadingWidget.fileSheet s') = None).
Proof.
  intros Ha. unfold LoadingWidget.annotation_options.
  rewrite bool_decide_eq_true_2 by (by destruct (LoadingWidget.annotationType s)).
  set (s1 := LoadingWidget.set_loadAnnotationFile_visible true
               (LoadingWidget.set_fileSheet
                  (FileSheet.init_annotation (LoadingWidget.fileSheet s)) s)).
  assert (LoadingWidget.fileSheet s1
          = FileSheet.mk 4 annotation_header
              ((λ _, ∅) <$> FileSheet.rows (LoadingWidget.fileSheet s)))
    as Hsheet by (unfold s1; simpl; by format_sheets).
  destruct (add_column1_files_cells s1) as (Hrows & Hnames & Hother);
    [rewrite Hsheet; simpl; lia |].
  rewrite Hsheet in Hrows, Hother. rewrite rowCount_blank_rows in Hrows.
  split; [| split; [exact Hrows | split; [| split; [exact Hnames |]]]].
  - by rewrite add_column1_files_columnCount, Hsheet.
  - by rewrite column2_add_column1_files.
  - intros row. rewrite Hother; simpl; [| lia | lia | lia].
    apply item_blank_rows.
Qed.

Lemma annotation_options_refills_names_witness :
  FileSheet.item 0 0
    (LoadingWidget.fileSheet (LoadingWidget.annotation_options two_annotated_volumes))
    = Some "a.nii"
  ∧ FileSheet.item 0 1
      (LoadingWidget.fileSheet
         (LoadingWidget.annotation_options two_annotated_volumes))
    = None.
Proof.
  destruct (annotation_options_refills_names two_annotated_volumes)
    as (_ & _ & _ & Hnames & Hblank); [done |].
  split; [exact (Hnames 0%nat "/data/a.nii" eq_refl) | exact (Hblank 0)].
Defined.

(** X14: the slots of a dataset-type change keep the catalog, the results
    folder, the annotation type, the analyzed mark and the thread; they
    enable the graph options tab and disable the annotation combo box
    exactly under Graph. *)
Theorem datasetType_changed_keeps_catalog (p : AnalysisPage.t) :
  let p' := AnalysisPage.datasetType_changed p in
  settings (AnalysisPage.Loading p') = settings (AnalysisPage.Loading p)
  ∧ AnalysisPage.analyzed p' = AnalysisPage.analyzed p
  ∧ AnalysisPage.a_thread p' = AnalysisPage.a_thread p
  ∧ AnalysisPage.graphFormat p' = AnalysisPage.graphFormat p
  ∧ AnalysisPage.graphTab_enabled p'
    = is_graph (LoadingWidget.datasetType (AnalysisPage.Loading p))
  ∧ LoadingWidget.annotationType_disabled (AnalysisPage.Loading p')
    = is_graph (LoadingWidget.datasetType (AnalysisPage.Loading p)).
Proof.
  destruct p as [an [rf c1 c2 ad d a dis vis txt sty def sh] gf tab th].
  cbv zeta. by rewrite datasetType_changed_closed.
Qed.

(** X15: the slots of an annotation-type change keep the catalog when the
    new type is ID or RGB, and drop it and reset the label of the loaded
    file to ["None"] when the new type is None; the JSON loader is visible
    exactly when the new type is not None. *)
Theorem annotationType_changed_catalog (p : AnalysisPage.t) :
  let l := AnalysisPage.Loading p in
  let l' := AnalysisPage.Loading (AnalysisPage.annotationType_changed p) in
  LoadingWidget.annotation_data l'
    = (if decide (LoadingWidget.annotationType l = Ann_None) then None
       else LoadingWidget.annotation_data l)
  ∧ LoadingWidget.loadedJSON_text l'
    = (if decide (LoadingWidget.annotationType l = Ann_None) then "None"
       else LoadingWidget.loadedJSON_text l)
  ∧ LoadingWidget.loadAnnotationFile_visible l'
    = (if decide (LoadingWidget.annotationType l = Ann_None) then false
       else true)
  ∧ LoadingWidget.annotationType l' = LoadingWidget.annotationType l
  ∧ LoadingWidget.datasetType l' = LoadingWidget.datasetType l.
Proof.
  unfold AnalysisPage.annotationType_changed, LoadingWidget.update_JSON,
    LoadingWidget.annotation_options.
  rewrite add_column1_files_sheet_only.
  destruct (LoadingWidget.annotationType (AnalysisPage.Loading p)) eqn:Ha; simpl;
    rewrite ?Ha; simpl; done.
Qed.

(** ** Status cells, continued *)

(** X16: [update_queue] writes nothing but markers: the numbers of rows and
    columns, the two file columns, the mode and the catalog are as before,
    and so is every cell outside the status column and, on a four-column
    sheet, the progress column. *)
Theorem update_queue_touches_only_markers (s : LoadingWidget.t) (row col : Z) :
  let s' := LoadingWidget.update_queue s in
  FileSheet.rowCount (LoadingWidget.fileSheet s')
    = FileSheet.rowCount (LoadingWidget.fileSheet s)
  ∧ FileSheet.columnCount (LoadingWidget.fileSheet s')
    = FileSheet.columnCount (LoadingWidget.fileSheet s)
  ∧ LoadingWidget.column1_files s' = LoadingWidget.column1_files s
  ∧ LoadingWidget.column2_files s' = LoadingWidget.column2_files s
  ∧ settings s' = settings s
  ∧ (col ≠ FileSheet.columnCount (LoadingWidget.fileSheet s) - 1 →
     (FileSheet.columnCount (LoadingWidget.fileSheet s) = 4 → col ≠ 2) →
     FileSheet.item row col (LoadingWidget.fileSheet s')
     = FileSheet.item row col (LoadingWidget.fileSheet s)).
Proof.
  cbv zeta.
  split; [apply update_queue_counts | split; [apply update_queue_counts |]].
  split; [by rewrite update_queue_sheet_only |].
  split; [by rewrite update_queue_sheet_only |].
  split; [apply settings_update_queue | apply update_queue_other_cells].
Qed.

Lemma update_queue_touches_only_markers_witness :
  FileSheet.item 1 1
    (LoadingWidget.fileSheet (LoadingWidget.update_queue two_annotated_volumes))
  = Some "b_ids.nii".
Proof.
  destruct (update_queue_touches_only_markers two_annotated_volumes 1 1)
    as (_ & _ & _ & _ & _ & Hcell).
  rewrite Hcell; [reflexivity | by vm_compute | by vm_compute].
Defined.

(** X17: loading a structurally valid annotation file whose catalog has N
    regions, N not zero, and not declining it, refreshes the queue: on a
    four-column sheet every row then reads ["0/N"] in the progress cell and
    the queued marker in the status cell. *)
Theorem load_annotation_file_refreshes_queue
    (loaded_file : string) (parsed : gmap string (gmap string region))
    (answer : Z) (s : LoadingWidget.t) (row : Z) :
  loaded_file ≠ "" →
  valid_document parsed →
  answer ≠ QMessageBox_No →
  size (parsed !!! catalog_marker) ≠ 0%nat →
  FileSheet.columnCount (LoadingWidget.fileSheet s) = 4 →
  0 ≤ row < FileSheet.rowCount (LoadingWidget.fileSheet s) →
  let s' := (LoadingWidget.load_annotation_file loaded_file parsed answer s).1 in
  FileSheet.item row 2 (LoadingWidget.fileSheet s')
    = Some ("0/" +:+ pretty (size (parsed !!! catalog_marker)))
  ∧ FileSheet.item row 3 (LoadingWidget.fileSheet s') = Some "Queued...".
Proof.
  intros Hfile Hvalid Hanswer Hsize Hcols Hrow.
  unfold LoadingWidget.load_annotation_file.
  rewrite nonempty_path, structural_test_false by done.
  rewrite (bool_decide_eq_false_2 _ Hanswer).
  set (s1 := LoadingWidget.set_annotation_data _ _).
  assert ((if String.eqb (annotationType_currentText (LoadingWidget.annotationType s))
                "RGB" && RGB_check (parsed !!! catalog_marker)
           then (LoadingWidget.update_queue s1, [RGB_Warning])
           else (LoadingWidget.update_queue s1, [])).1
          = LoadingWidget.update_queue s1) as -> by (by destruct (_ && _)).
  assert (LoadingWidget.fileSheet s1 = LoadingWidget.fileSheet s) as Hsheet
    by done.
  assert (LoadingWidget.annotation_data s1 = Some (parsed !!! catalog_marker))
    as Hdata by done.
  split.
  - rewrite update_queue_progress by (by rewrite Hsheet).
    rewrite Hdata. simpl.
    by destruct (size (parsed !!! catalog_marker)).
  - replace 3 with (FileSheet.columnCount (LoadingWidget.fileSheet s1) - 1)
      by (rewrite Hsheet, Hcols; lia).
    apply update_queue_status; rewrite Hsheet; [lia | done].
Qed.

Lemma load_annotation_file_refreshes_queue_witness :
  FileSheet.item 0 2
    (LoadingWidget.fileSheet
       (LoadingWidget.load_annotation_file "/data/atlas.json"
          (annotation_document clashing_catalog) QMessageBox_Yes id_widget).1)
  = Some "0/2".
Proof.
  destruct (load_annotation_file_refreshes_queue "/data/atlas.json"
              (annotation_document clashing_catalog) QMessageBox_Yes
              id_widget 0) as [Hprogress _].
  - done.
  - apply annotation_document_valid.
  - done.
  - rewrite annotation_document_catalog. by vm_compute.
  - reflexivity.
  - by vm_compute.
  - rewrite Hprogress, annotation_document_catalog. reflexivity.
Defined.

(** X18: a status update whose row index fits a C int returns; for a row
    of the sheet it writes the text into the status cell of that row and,
    when the sheet has four columns and the status carries exactly one
    further entry, that entry into the progress cell; the cells of all
    other rows, the columns, the mode and the catalog stay as they are; and
    for a row the sheet does not have (one that was removed, say) it changes
    nothing.  A row index outside the C int range raises [OverflowError] at
    the first [setItem]. *)
Theorem update_status_writes_one_row
    (index : Z) (text : string) (rest : list string) (s : LoadingWidget.t) :
  let sheet := LoadingWidget.fileSheet s in
  (¬ (- 2 ^ 31 ≤ index < 2 ^ 31) →
   LoadingWidget.update_status index text rest s = Raise OverflowError)
  ∧ (- 2 ^ 31 ≤ index < 2 ^ 31 →
     ∃ s', LoadingWidget.update_status index text rest s = Return (s', index)
       ∧ LoadingWidget.column1_files s' = LoadingWidget.column1_files s
       ∧ LoadingWidget.column2_files s' = LoadingWidget.column2_files s
       ∧ settings s' = settings s
       ∧ (∀ row col, row ≠ index → 0 ≤ row →
            FileSheet.item row col (LoadingWidget.fileSheet s')
            = FileSheet.item row col sheet)
       ∧ (¬ (0 ≤ index < FileSheet.rowCount sheet) → s' = s)
       ∧ (0 ≤ index < FileSheet.rowCount sheet →
          0 < FileSheet.columnCount sheet →
          FileSheet.item index (FileSheet.columnCount sheet - 1)
            (LoadingWidget.fileSheet s') = Some text)
       ∧ (0 ≤ index < FileSheet.rowCount sheet →
          FileSheet.columnCount sheet = 4 →
          ∀ extra, rest = [extra] →
            FileSheet.item index 2 (LoadingWidget.fileSheet s') = Some extra)).
Proof.
  cbv zeta. unfold LoadingWidget.update_status, C_int. split.
  { intros Hout. by rewrite (bool_decide_eq_false_2 _ Hout). }
  intros Hint. rewrite (bool_decide_eq_true_2 _ Hint). simpl.
  eexists. split; [reflexivity |]. simpl.
  split; [done | split; [done | split; [done |]]].
  set (column := FileSheet.columnCount (LoadingWidget.fileSheet s) - 1).
  set (sheet1 := FileSheet.setItem index column text (LoadingWidget.fileSheet s)).
  split; [| split; [| split]].
  - intros row col Hne Hrow.
    destruct rest as [| extra rest];
      destruct (bool_decide (column = 3) && _); unfold sheet1;
      rewrite ?item_setItem_other_row by done; done.
  - intros Hout.
    assert (∀ c t sh, FileSheet.rowCount sh
                      = FileSheet.rowCount (LoadingWidget.fileSheet s) →
                      FileSheet.setItem index c t sh = sh) as Hnoop.
    { intros c t sh Hsh. unfold FileSheet.setItem.
      rewrite bool_decide_eq_false_2; [done |]. rewrite Hsh. tauto. }
    unfold sheet1. rewrite (Hnoop column text _ eq_refl).
    destruct rest as [| extra rest];
      destruct (bool_decide (column = 3) && _);
      rewrite ?(Hnoop _ _ _ eq_refl); apply set_fileSheet_id.
  - intros Hrow Hcols.
    assert (FileSheet.item index column sheet1 = Some text) as Hstatus
      by (apply item_setItem_eq; unfold column; lia).
    destruct rest as [| extra rest];
      destruct (bool_decide (column = 3) && _); try done.
    rewrite item_setItem_other_column by lia. done.
  - intros Hrow Hcols extra ->.
    assert (column = 3) as Hcolumn by (unfold column; lia).
    rewrite (bool_decide_eq_true_2 _ Hcolumn). simpl.
    rewrite Hcolumn. apply item_setItem_eq.
    + unfold sheet1. by rewrite setItem_rowCount.
    + unfold sheet1. rewrite setItem_columnCount. lia.
Qed.

Lemma update_status_writes_one_row_witness :
  (∃ s', LoadingWidget.update_status 1 "Analyzed" ["3/7"] two_annotated_volumes
         = Return (s', 1)
         ∧ FileSheet.item 1 3 (LoadingWidget.fileSheet s') = Some "Analyzed"
         ∧ FileSheet.item 1 2 (LoadingWidget.fileSheet s') = Some "3/7")
  ∧ LoadingWidget.update_status 5 "Analyzed" ["3/7"] two_annotated_volumes
    = Return (two_annotated_volumes, 5)
  ∧ LoadingWidget.update_status (2 ^ 31) "Analyzed" ["3/7"] two_annotated_volumes
    = Raise OverflowError.
Proof.
  destruct (update_status_writes_one_row 1 "Analyzed" ["3/7"]
              two_annotated_volumes) as [_ Hin].
  destruct Hin as (s' & Hs' & _ & _ & _ & _ & _ & Hstatus & Hprogress); [lia |].
  destruct (update_status_writes_one_row 5 "Analyzed" ["3/7"]
              two_annotated_volumes) as [_ Hmissing].
  destruct Hmissing as (s5 & Hs5 & _ & _ & _ & _ & Hsame & _); [lia |].
  destruct (update_status_writes_one_row (2 ^ 31) "Analyzed" ["3/7"]
              two_annotated_volumes) as [Hover _].
  split; [| split].
  - exists s'. split; [exact Hs' |]. split.
    + apply Hstatus; by vm_compute.
    + apply (Hprogress ltac:(by vm_compute) eq_refl "3/7" eq_refl).
  - rewrite Hs5. rewrite Hsame; [done |].
    vm_compute. intros [_ H]. discriminate H.
  - apply Hover. lia.
Defined.

(** ** The file-loader dialog *)



(** ** Requests on an analyzed page *)

Section AnalyzedPage.

Import AnalysisPage.

Lemma select_files_paired ui p :
  requires_column2
    (spec_resolve (LoadingWidget.datasetType (Loading p))
                  (LoadingWidget.annotationType (Loading p))
                  (graphFormat p)) = true →
  select_files ui p = Raise (AttributeError "cancel_load").
Proof.
  intros Hmode. unfold select_files, dataset_text, annotation_text.
  rewrite FileLoader_init_raises.
  destruct (LoadingWidget.datasetType (Loading p)),
           (LoadingWidget.annotationType (Loading p));
    simpl in *; try done;
    destruct (String.eqb (graphFormat p) "CSV"); done.
Qed.

End AnalyzedPage.

(** X20: on a page marked analyzed, any number of run requests in a row
    only show the load-files warning, once each, and leave the page as it
    is.  A load request in a single-column mode returns a page that is no
    longer marked analyzed, whose column 1 holds exactly the picked files,
    whose column 2 is empty and whose results folder, mode and catalog are
    kept; a load request in a paired mode raises [AttributeError], so that
    nothing is cleared. *)
Theorem analyzed_page_requests
    (p : AnalysisPage.t) (ui : AnalysisPage.picker) :
  AnalysisPage.analyzed p = true →
  (∀ n, run_requests n p = Return (p, replicate n AnalysisPage.analysis_warning))
  ∧ (requires_column2
       (spec_resolve (LoadingWidget.datasetType (AnalysisPage.Loading p))
                     (LoadingWidget.annotationType (AnalysisPage.Loading p))
                     (AnalysisPage.graphFormat p)) = false →
     ∃ p', AnalysisPage.load_files ui p = Return p'
       ∧ AnalysisPage.analyzed p' = false
       ∧ LoadingWidget.column1_files (AnalysisPage.Loading p')
         = picked_files ui (LoadingWidget.datasetType (AnalysisPage.Loading p))
       ∧ LoadingWidget.column2_files (AnalysisPage.Loading p') = []
       ∧ settings (AnalysisPage.Loading p') = settings (AnalysisPage.Loading p))
  ∧ (requires_column2
       (spec_resolve (LoadingWidget.datasetType (AnalysisPage.Loading p))
                     (LoadingWidget.annotationType (AnalysisPage.Loading p))
                     (AnalysisPage.graphFormat p)) = true →
     AnalysisPage.load_files ui p = Raise (AttributeError "cancel_load")).
Proof.
  intros Han. split; [| split].
  - intros n. by apply run_requests_analyzed.
  - intros Hmode. eexists. split; [by apply load_files_single_column |].
    destruct (store_files_columns
                (Some (picked_files ui
                         (LoadingWidget.datasetType (AnalysisPage.Loading p))))
                None p) as (Han' & Hc1 & Hc2).
    rewrite Han in Hc1, Hc2. simpl in Hc1, Hc2.
    repeat split; try done. apply store_files_settings.
  - intros Hmode. unfold AnalysisPage.load_files.
    by rewrite select_files_paired.
Qed.

Lemma analyzed_page_requests_witness :
  run_requests 2 analyzed_volume_batch
    = Return (analyzed_volume_batch,
              [AnalysisPage.analysis_warning; AnalysisPage.analysis_warning])
  ∧ ∃ p', AnalysisPage.load_files later_picks analyzed_volume_batch = Return p'
       ∧ LoadingWidget.column1_files (AnalysisPage.Loading p') = ["/data/c.nii"].
Proof.
  destruct (analyzed_page_requests analyzed_volume_batch later_picks eq_refl)
    as (Hrun & Hload & _).
  split.
  - exact (Hrun 2%nat).
  - destruct (Hload eq_refl) as (p' & Hp' & _ & Hc1 & _).
    exists p'. split; [exact Hp' | exact Hc1].
Defined.

(** ** Annotation files that are not a catalog *)

(** X21: what the slot does with a chosen annotation file that does not
    parse to a mapping of mappings.  A failure to open or parse the file
    is raised unchanged.  A list or a string whose length is not one is
    rejected with the incorrect-filetype error; one of length one raises
    [AttributeError], since it has no [keys]; a number, a truth value and
    null raise [TypeError], since they have no length.  A mapping with the
    marker as its only key and a true value under it that is not a mapping
    raises [AttributeError] when the queue of a four-column sheet is
    refreshed, outside RGB mode. *)
Theorem load_annotation_json_other_documents
    (loaded_file : string) (check_other : outcome bool) (answer : Z)
    (s : LoadingWidget.t) :
  loaded_file ≠ "" →
  let load := λ parsed,
    LoadingWidget.load_annotation_json loaded_file parsed check_other answer s in
  let rejected :=
    Return (LoadingWidget.Widget
              (LoadingWidget.JSON_error "Incorrect filetype!" s), []) in
  (∀ e, load (Raise e) = Raise e)
  ∧ (∀ len, len ≠ 1%nat →
       load (Return (JSON_array len)) = rejected
       ∧ load (Return (JSON_string len)) = rejected)
  ∧ load (Return (JSON_array 1)) = Raise (AttributeError "keys")
  ∧ load (Return (JSON_string 1)) = Raise (AttributeError "keys")
  ∧ load (Return JSON_number) = Raise (TypeError "len")
  ∧ (∀ b, load (Return (JSON_bool b)) = Raise (TypeError "len"))
  ∧ load (Return JSON_null) = Raise (TypeError "len")
  ∧ (LoadingWidget.annotationType s ≠ Ann_RGB →
     FileSheet.columnCount (LoadingWidget.fileSheet s) = 4 →
     load (Return (JSON_object {[ catalog_marker := Member_other true ]}))
     = Raise (AttributeError "keys")).
Proof.
  intros Hfile load rejected. unfold load, rejected.
  unfold LoadingWidget.load_annotation_json.
  rewrite nonempty_path by done.
  split; [done |]. split.
  { intros len Hlen. simpl.
    destruct (Nat.eqb_spec len 1) as [-> | _]; done. }
  do 5 (split; [done |]).
  intros Hmode Hcolumns. simpl.
  rewrite map_size_singleton. simpl.
  rewrite bool_decide_eq_true_2
    by (apply elem_of_dom; eexists; apply lookup_singleton_eq).
  simpl. rewrite lookup_singleton_eq. simpl.
  destruct (LoadingWidget.annotationType s); try done; simpl;
    unfold LoadingWidget.update_queue_other;
    rewrite (proj2 (fill_column_counts _ _ _)); simpl;
    by rewrite (bool_decide_eq_true_2 _ Hcolumns).
Qed.

Lemma load_annotation_json_other_documents_witness :
  LoadingWidget.load_annotation_json "/data/list.json"
    (Return (JSON_array 3)) (Return false) QMessageBox_Yes id_widget
  = Return (LoadingWidget.Widget
              (LoadingWidget.JSON_error "Incorrect filetype!" id_widget), [])
  ∧ LoadingWidget.load_annotation_json "/data/list.json"
      (Return (JSON_object {[ catalog_marker := Member_other true ]}))
      (Return false) QMessageBox_Yes id_widget
    = Raise (AttributeError "keys").
Proof.
  assert (Hfile : "/data/list.json" ≠ "") by discriminate.
  pose proof (load_annotation_json_other_documents "/data/list.json"
                (Return false) QMessageBox_Yes id_widget Hfile) as H.
  cbv zeta beta in H.
  destruct H as (_ & Hlist & _ & _ & _ & _ & _ & Hmember).
  split.
  - apply (Hlist 3%nat). lia.
  - apply Hmember; [discriminate | reflexivity].
Defined.
